(** * Retail chain inventory tracker: the stock ledger and its reports

    A shallow embedding of [backend/models.py],
    [backend/services/inventory_service.py] and the polling endpoint of
    [backend/api.py], followed by the properties of the ledger.

    Tables are lists of rows in insertion order.  Integers are [Z]
    (Python integers do not wrap).  A [datetime] is a [Z] (microseconds
    on the time line); [datetime.now] reads a clock that the session
    carries as an oracle.  The SQLAlchemy session is explicit state: the
    committed tables, the tables as the session sees them, and the rows
    waiting for their INSERT.  A Python exception is a result of the
    computation which leaves the session as it was when raised. *)

From Stdlib Require Import ZArith List String Ascii Bool Lia DecimalString.
From Stdlib Require Import Sorting.Sorted.
From Stdlib Require DecimalPos DecimalZ.
Import ListNotations.

Local Open Scope Z_scope.

(** ** Python values and strings *)

(** [str(n)] for an integer. *)
Definition str (n : Z) : string := NilZero.string_of_int (Z.to_int n).

(** [s.startswith(p)]; used to read the direction of a transfer row. *)
Fixpoint startswith (p s : string) : bool :=
  match p with
  | EmptyString => true
  | String a p' =>
      match s with
      | EmptyString => false
      | String b s' => Ascii.eqb a b && startswith p' s'
      end
  end.

(** What the JSON body can carry in the [delta] field: an integer, or
    something on which [isinstance(delta, int)] is false. *)
Inductive PyValue : Type :=
| PyInt (n : Z)
| PyNotInt (repr : string).

(** Truth value of an optional id: [None] and [0] are both false. *)
Definition truthy (x : option Z) : bool :=
  match x with
  | None => false
  | Some n => negb (n =? 0)
  end.

(** [column == value] where the value may be [None]: a non-null column is
    never equal to [None]. *)
Definition eq_opt (col : Z) (v : option Z) : bool :=
  match v with
  | None => false
  | Some n => col =? n
  end.

(** ** models.py *)

Module Store.
Record t : Type := Build
    { id : Z; name : string; location : string }.
End Store.

Module Product.
(** [unit_cost] and [selling_price] are floats that no ledger operation
      reads; they are left out. *)
Record t : Type := Build
    { id : Z; sku : string; name : string; category : string;
      reorder_level : Z }.
End Product.

Module InventoryItem.
Record t : Type := Build
    { id : Z; store_id : Z; product_id : Z; quantity : Z;
      last_updated : option Z }.

Definition set_quantity (q : Z) (i : t) : t :=
    Build (id i) (store_id i) (product_id i) q (last_updated i).

Definition set_last_updated (ts : Z) (i : t) : t :=
    Build (id i) (store_id i) (product_id i) (quantity i) (Some ts).

(** [filter_by(store_id=..., product_id=...)] *)
Definition matches (s p : Z) (i : t) : bool :=
    (store_id i =? s) && (product_id i =? p).
End InventoryItem.

Module Transaction.
Record t : Type := Build
    { id : Z; product_id : Z; store_id : Z; type : string; quantity : Z;
      timestamp : Z; note : string; related_store_id : option Z;
      user_id : option Z }.

(** A [Transaction(...)] object before its INSERT: the primary key and
      the [timestamp] column default are not there yet. *)
Record pending : Type := Pending
    { p_product_id : Z; p_store_id : Z; p_type : string; p_quantity : Z;
      p_note : string; p_related_store_id : option Z;
      p_user_id : option Z }.

(** The INSERT: the key is issued and the column default
      [lambda: datetime.now(timezone.utc)] is called for this row. *)
Definition insert (key now : Z) (d : pending) : t :=
    Build key (p_product_id d) (p_store_id d) (p_type d) (p_quantity d)
          now (p_note d) (p_related_store_id d) (p_user_id d).
End Transaction.

Record Database : Type := mkDatabase
  { stores : list Store.t;
    products : list Product.t;
    inventory_items : list InventoryItem.t;
    transactions : list Transaction.t }.

(** The key an INSERT issues on an INTEGER PRIMARY KEY column of SQLite:
    one more than the largest key in the table. *)
Definition next_key (keys : list Z) : Z := 1 + fold_right Z.max 0 keys.

(** ** The session *)

Inductive exn : Type :=
| ValueError (msg : string).

Inductive result (A : Type) : Type :=
| Ok (a : A)
| Raise (e : exn).
Arguments Ok {A} a.
Arguments Raise {A} e.

Record Session : Type := mkSession
  { committed : Database;          (* what the database holds *)
    view : Database;               (* what this session reads and writes *)
    new_transactions : list Transaction.pending;  (* added, not inserted *)
    clock : nat -> Z;              (* successive readings of the clock *)
    reads : nat }.                 (* how many have been taken *)

(** A request starts with a session that has nothing pending. *)
Definition open_session (db : Database) (clk : nat -> Z) (n : nat) : Session :=
  mkSession db db [] clk n.

Definition M (A : Type) : Type := Session -> result A * Session.

Definition ret {A} (a : A) : M A := fun s => (Ok a, s).

Definition bind {A B} (m : M A) (k : A -> M B) : M B :=
  fun s =>
    match m s with
    | (Ok a, s') => k a s'
    | (Raise e, s') => (Raise e, s')
    end.

Definition raise {A} (e : exn) : M A := fun s => (Raise e, s).

(** [try: body except Exception as e: handler] *)
Definition try_except {A} (body : M A) (handler : exn -> M A) : M A :=
  fun s =>
    match body s with
    | (Ok a, s') => (Ok a, s')
    | (Raise e, s') => handler e s'
    end.

Declare Scope py_scope.
Delimit Scope py_scope with py.
Notation "x <- m ;; k" := (bind m (fun x => k))
  (at level 61, m at next level, right associativity) : py_scope.
Notation "m ;; k" := (bind m (fun _ => k))
  (at level 61, right associativity) : py_scope.
Local Open Scope py_scope.

(** [if cond: raise e] *)
Definition raise_if (cond : bool) (e : exn) : M unit :=
  if cond then raise e else ret tt.

(** [datetime.now(timezone.utc)] *)
Definition now : M Z :=
  fun s => (Ok (clock s (reads s)),
            mkSession (committed s) (view s) (new_transactions s)
                      (clock s) (S (reads s))).

Definition query {A} (f : Database -> A) : M A :=
  fun s => (Ok (f (view s)), s).

Definition with_inventory_items
    (f : list InventoryItem.t -> list InventoryItem.t) : M unit :=
  fun s =>
    let v := view s in
    (Ok tt,
     mkSession (committed s)
               (mkDatabase (stores v) (products v) (f (inventory_items v))
                           (transactions v))
               (new_transactions s) (clock s) (reads s)).

Definition with_products (f : list Product.t -> list Product.t) : M unit :=
  fun s =>
    let v := view s in
    (Ok tt,
     mkSession (committed s)
               (mkDatabase (stores v) (f (products v)) (inventory_items v)
                           (transactions v))
               (new_transactions s) (clock s) (reads s)).

(** [db.session.add(InventoryItem(store_id, product_id, quantity=0))]:
    the row joins the table the session sees.  Its key is the one the
    INSERT will issue: no other row enters the table before the flush. *)
Definition add_inventory_item (s p : Z) : M InventoryItem.t :=
  items <- query inventory_items ;;
  let item := InventoryItem.Build
                (next_key (map InventoryItem.id items)) s p 0 None in
  with_inventory_items (fun l => l ++ [item]) ;;
  ret item.

(** Writing an attribute of the object a query returned writes the row it
    stands for: the first row of the pair. *)
Fixpoint update_first {A} (test : A -> bool) (f : A -> A) (l : list A)
  : list A :=
  match l with
  | [] => []
  | x :: l' => if test x then f x :: l' else x :: update_first test f l'
  end.

Definition setattr_item (s p : Z) (f : InventoryItem.t -> InventoryItem.t)
  : M unit :=
  with_inventory_items (update_first (InventoryItem.matches s p) f).

(** [db.session.add(transaction)] *)
Definition add_transaction (d : Transaction.pending) : M unit :=
  fun s => (Ok tt,
            mkSession (committed s) (view s) (new_transactions s ++ [d])
                      (clock s) (reads s)).

(** The flush inserts the pending rows in the order they were added, each
    with its own key and its own reading of the clock. *)
Fixpoint flush (ds : list Transaction.pending) (tbl : list Transaction.t)
    (clk : nat -> Z) (n : nat)
  : list Transaction.t * list Transaction.t * nat :=
  match ds with
  | [] => ([], tbl, n)
  | d :: ds' =>
      let row := Transaction.insert
                   (next_key (map Transaction.id tbl)) (clk n) d in
      let '(rows, tbl', n') := flush ds' (tbl ++ [row]) clk (S n) in
      (row :: rows, tbl', n')
  end.

(** [db.session.commit()]; it returns the rows it inserted, which is what
    the caller sees when it reads [transaction.id] afterwards. *)
Definition commit : M (list Transaction.t) :=
  fun s =>
    let v := view s in
    let '(rows, tbl, n) :=
      flush (new_transactions s) (transactions v) (clock s) (reads s) in
    let db := mkDatabase (stores v) (products v) (inventory_items v) tbl in
    (Ok rows, mkSession db db [] (clock s) n).

(** [db.session.rollback()] *)
Definition rollback : M unit :=
  fun s => (Ok tt,
            mkSession (committed s) (committed s) [] (clock s) (reads s)).

(** ** services/inventory_service.py *)

Module InventoryService.

(** [self]: the service carries the acting user. *)
Record t : Type := Build { user_id : option Z }.

(** [Store.query.get(store_id)] *)
Definition get_store_by_id (store_id : Z) : M (option Store.t) :=
  query (fun db => find (fun s => Store.id s =? store_id) (stores db)).

(** [Product.query.get(product_id)] *)
Definition get_product_by_id (product_id : Z) : M (option Product.t) :=
  query (fun db => find (fun p => Product.id p =? product_id) (products db)).

(** [InventoryItem.query.filter_by(store_id=..., product_id=...).first()] *)
Definition get_inventory_item (store_id product_id : Z)
  : M (option InventoryItem.t) :=
  query (fun db =>
           find (InventoryItem.matches store_id product_id)
                (inventory_items db)).

(** The dictionary [update_stock] returns; [inventory_item] is the row
    that [to_dict] serialises. *)
Record update_result : Type := UpdateResult
  { new_quantity : Z;
    transaction_id : Z;
    timestamp : Z;
    inventory_item : option InventoryItem.t }.

(** The [try] block of [update_stock].  The commit is taken to succeed:
    the one constraint the block could break is the unique pair, and it
    adds a row only for a pair that has none. *)
Definition update_stock_body (self : t) (store_id product_id : Z)
    (delta : PyValue) (reason : string) : M update_result :=
  (* Validate inputs *)
  delta <- match delta with
           | PyInt d =>
               raise_if (d =? 0)
                 (ValueError "Delta must be a non-zero integer") ;;
               ret d
           | PyNotInt _ =>
               raise (ValueError "Delta must be a non-zero integer")
           end ;;
  store <- get_store_by_id store_id ;;
  product <- get_product_by_id product_id ;;
  raise_if (match store with None => true | Some _ => false end)
    (ValueError ("Store with ID " ++ str store_id ++ " not found")) ;;
  raise_if (match product with None => true | Some _ => false end)
    (ValueError ("Product with ID " ++ str product_id ++ " not found")) ;;
  (* Get or create inventory item *)
  found <- get_inventory_item store_id product_id ;;
  inventory_item <- match found with
                    | Some i => ret i
                    | None => add_inventory_item store_id product_id
                    end ;;
  (* Check for sufficient stock if decreasing *)
  let new_quantity := InventoryItem.quantity inventory_item + delta in
  raise_if (new_quantity <? 0)
    (ValueError ("Insufficient stock. Current: "
                 ++ str (InventoryItem.quantity inventory_item)
                 ++ ", Requested: " ++ str (Z.abs delta))) ;;
  (* Update quantity *)
  setattr_item store_id product_id
    (InventoryItem.set_quantity new_quantity) ;;
  ts <- now ;;
  setattr_item store_id product_id (InventoryItem.set_last_updated ts) ;;
  (* Create transaction record *)
  let transaction_type := (if delta >? 0 then "IN" else "OUT")%string in
  add_transaction
    (Transaction.Pending product_id store_id transaction_type
       (Z.abs delta) reason None (user_id self)) ;;
  rows <- commit ;;
  row <- get_inventory_item store_id product_id ;;
  ret (UpdateResult new_quantity
         (hd 0 (map Transaction.id rows))
         (hd 0 (map Transaction.timestamp rows))
         row).

(** [except Exception as e: db.session.rollback(); raise e] *)
Definition update_stock (self : t) (store_id product_id : Z)
    (delta : PyValue) (reason : string) : M update_result :=
  try_except (update_stock_body self store_id product_id delta reason)
    (fun e => rollback ;; raise e).

Record side_result : Type := SideResult
  { side_new_quantity : Z;
    side_transaction_id : Z;
    side_inventory_item : option InventoryItem.t }.

Record transfer_result : Type := TransferResult
  { from_store : side_result;
    to_store : side_result;
    transfer_timestamp : Z }.

(** [item.quantity if item else 0] *)
Definition quantity_of (i : option InventoryItem.t) : Z :=
  match i with
  | Some it => InventoryItem.quantity it
  | None => 0
  end.

(** The [try] block of [transfer_stock]; [quantity] is an [int], as its
    docstring has it (the block does not test the type). *)
Definition transfer_stock_body (self : t)
    (from_store_id to_store_id product_id quantity : Z) (reason : string)
  : M transfer_result :=
  (* Validate inputs *)
  raise_if (quantity <=? 0)
    (ValueError "Transfer quantity must be positive") ;;
  raise_if (from_store_id =? to_store_id)
    (ValueError "Cannot transfer to the same store") ;;
  from_store <- get_store_by_id from_store_id ;;
  to_store <- get_store_by_id to_store_id ;;
  product <- get_product_by_id product_id ;;
  match from_store, to_store with
  | None, _ =>
      raise (ValueError ("Source store with ID " ++ str from_store_id
                         ++ " not found"))
  | Some _, None =>
      raise (ValueError ("Destination store with ID " ++ str to_store_id
                         ++ " not found"))
  | Some from_store, Some to_store =>
      raise_if (match product with None => true | Some _ => false end)
        (ValueError ("Product with ID " ++ str product_id ++ " not found")) ;;
      (* Get source inventory item *)
      from_inventory <- get_inventory_item from_store_id product_id ;;
      raise_if (match from_inventory with
                | None => true
                | Some i => InventoryItem.quantity i <? quantity
                end)
        (ValueError ("Insufficient stock at source store. Current: "
                     ++ str (quantity_of from_inventory)
                     ++ ", Requested: " ++ str quantity)) ;;
      (* Get or create destination inventory item *)
      to_inventory <- get_inventory_item to_store_id product_id ;;
      match to_inventory with
      | Some _ => ret tt
      | None => add_inventory_item to_store_id product_id ;; ret tt
      end ;;
      (* Update quantities *)
      setattr_item from_store_id product_id
        (fun i => InventoryItem.set_quantity
                    (InventoryItem.quantity i - quantity) i) ;;
      ts_from <- now ;;
      setattr_item from_store_id product_id
        (InventoryItem.set_last_updated ts_from) ;;
      setattr_item to_store_id product_id
        (fun i => InventoryItem.set_quantity
                    (InventoryItem.quantity i + quantity) i) ;;
      ts_to <- now ;;
      setattr_item to_store_id product_id
        (InventoryItem.set_last_updated ts_to) ;;
      (* Create transaction records for both stores *)
      add_transaction
        (Transaction.Pending product_id from_store_id "TRANSFER" quantity
           ("Transfer OUT to " ++ Store.name to_store ++ ": " ++ reason)
           (Some to_store_id) (user_id self)) ;;
      add_transaction
        (Transaction.Pending product_id to_store_id "TRANSFER" quantity
           ("Transfer IN from " ++ Store.name from_store ++ ": " ++ reason)
           (Some from_store_id) (user_id self)) ;;
      rows <- commit ;;
      from_row <- get_inventory_item from_store_id product_id ;;
      to_row <- get_inventory_item to_store_id product_id ;;
      ret (TransferResult
             (SideResult (quantity_of from_row)
                (nth 0 (map Transaction.id rows) 0) from_row)
             (SideResult (quantity_of to_row)
                (nth 1 (map Transaction.id rows) 0) to_row)
             (hd 0 (map Transaction.timestamp rows)))
  end.

Definition transfer_stock (self : t)
    (from_store_id to_store_id product_id quantity : Z) (reason : string)
  : M transfer_result :=
  try_except
    (transfer_stock_body self from_store_id to_store_id product_id quantity
       reason)
    (fun e => rollback ;; raise e).

(** [Store.query.all()] *)
Definition get_stores : M (list Store.t) := query stores.

(** [Product.query.all()] *)
Definition get_products : M (list Product.t) := query products.

(** [Product.query.filter_by(sku=sku).first()] *)
Definition get_product_by_sku (sku : string) : M (option Product.t) :=
  query (fun db =>
           find (fun p => (Product.sku p =? sku)%string) (products db)).

(** [add_product].  The two prices are floats with no column in the
    model's row.  The [ValueError] of the SKU test is not an
    [IntegrityError]: it leaves the [try] block without a rollback, with
    nothing added yet.  The commit is taken to succeed, the SKU having
    just been found free, so the [except IntegrityError] branch does not
    show. *)
Definition add_product (self : t) (sku name category : string)
    (reorder_level : Z) : M Product.t :=
  (* Check if product with SKU already exists *)
  existing_product <- get_product_by_sku sku ;;
  raise_if (match existing_product with Some _ => true | None => false end)
    (ValueError ("Product with SKU '" ++ sku ++ "' already exists")) ;;
  rows <- query products ;;
  let product :=
    Product.Build (next_key (map Product.id rows)) sku name category
      reorder_level in
  with_products (fun l => l ++ [product]) ;;
  commit ;;
  ret product.

(** A value of [**kwargs]: a string or an integer. *)
Inductive kwvalue : Type :=
| KwStr (v : string)
| KwInt (v : Z).

Definition allowed_fields : list string :=
  ["name"; "category"; "reorder_level"; "unit_cost"; "selling_price"]%string.

(** [setattr(product, field, value)] on the columns of the model's row.
    A text column given an integer holds its decimal text, as SQLite
    stores it; the two prices have no column here; [reorder_level] is
    taken to be given an integer, the row being left as it is
    otherwise. *)
Definition setattr (product : Product.t) (field : string) (value : kwvalue)
  : Product.t :=
  let text := match value with KwStr v => v | KwInt v => str v end in
  if (field =? "name")%string then
    Product.Build (Product.id product) (Product.sku product) text
      (Product.category product) (Product.reorder_level product)
  else if (field =? "category")%string then
    Product.Build (Product.id product) (Product.sku product)
      (Product.name product) text (Product.reorder_level product)
  else if (field =? "reorder_level")%string then
    match value with
    | KwInt v =>
        Product.Build (Product.id product) (Product.sku product)
          (Product.name product) (Product.category product) v
    | KwStr _ => product
    end
  else product.

(** [for field, value in kwargs.items(): if field in allowed_fields: ...] *)
Definition apply_kwargs (kwargs : list (string * kwvalue))
    (product : Product.t) : Product.t :=
  fold_left
    (fun product kv =>
       if existsb (String.eqb (fst kv)) allowed_fields
       then setattr product (fst kv) (snd kv)
       else product)
    kwargs product.

(** [update_product]; the commit is taken to succeed (no updated column
    carries a constraint). *)
Definition update_product (self : t) (product_id : Z)
    (kwargs : list (string * kwvalue)) : M Product.t :=
  product <- get_product_by_id product_id ;;
  match product with
  | None =>
      raise (ValueError ("Product with ID " ++ str product_id ++ " not found"))
  | Some product =>
      (* Update allowed fields *)
      with_products
        (update_first (fun p => Product.id p =? product_id)
           (apply_kwargs kwargs)) ;;
      commit ;;
      ret (apply_kwargs kwargs product)
  end.

(** [InventoryItem.query.filter_by(store_id=store_id).all()] *)
Definition get_inventory_for_store (store_id : Z)
  : M (list InventoryItem.t) :=
  query (fun db =>
           filter (fun i => InventoryItem.store_id i =? store_id)
                  (inventory_items db)).

End InventoryService.

(** ** The read side: reports and the polling endpoint *)

(** Python's [sum] over integers. *)
Definition sum (l : list Z) : Z := fold_right Z.add 0 l.

Module Reports.

Record low_stock_item : Type := LowStockItem
  { item : InventoryItem.t;
    product_name : string;
    product_sku : string;
    reorder_level : Z;
    shortage : Z }.

(** [db.session.query(InventoryItem, Product).join(Product)]: the pairs
    of an item and the product its foreign key names. *)
Definition join_product (db : Database)
  : list (InventoryItem.t * Product.t) :=
  flat_map
    (fun i =>
       map (fun p => (i, p))
           (filter (fun p => Product.id p =? InventoryItem.product_id i)
                   (products db)))
    (inventory_items db).

Definition get_low_stock_items (store_id : option Z) (db : Database)
  : list low_stock_item :=
  let query :=
    filter (fun ip => InventoryItem.quantity (fst ip)
                      <=? Product.reorder_level (snd ip))
           (join_product db) in
  let query :=
    if truthy store_id
    then filter (fun ip => eq_opt (InventoryItem.store_id (fst ip)) store_id)
                query
    else query in
  map (fun ip =>
         LowStockItem (fst ip) (Product.name (snd ip)) (Product.sku (snd ip))
           (Product.reorder_level (snd ip))
           (Product.reorder_level (snd ip)
            - InventoryItem.quantity (fst ip)))
      query.

Record totals : Type := Totals
  { total_in : Z;
    total_out : Z;
    total_transfers_in : Z;
    total_transfers_out : Z;
    net_change : Z }.

Record report : Type := Report
  { period : option Z * option Z;
    report_totals : totals;
    report_transactions : list Transaction.t }.

(** [t.type in ['IN', 'TRANSFER']] *)
Definition type_in (names : list string) (t : Transaction.t) : bool :=
  existsb (String.eqb (Transaction.type t)) names.

(** The window and the totals of [generate_stock_report].  A [datetime]
    is always true, so a bound is applied whenever it is given; the store
    filter is applied when [store_id] is true.  The summary of the
    current inventory, a separate query of the report, is not part of
    the totals and is left out. *)
Definition generate_stock_report (start_date end_date store_id : option Z)
    (db : Database) : report :=
  let query := transactions db in
  let query :=
    match start_date with
    | Some d => filter (fun t => Transaction.timestamp t >=? d) query
    | None => query
    end in
  let query :=
    match end_date with
    | Some d => filter (fun t => Transaction.timestamp t <=? d) query
    | None => query
    end in
  let query :=
    if truthy store_id
    then filter (fun t => eq_opt (Transaction.store_id t) store_id) query
    else query in
  let transactions := query in
  let total_in :=
    sum (map Transaction.quantity
           (filter (fun t => type_in ["IN"; "TRANSFER"]%string t
                             && eq_opt (Transaction.store_id t) store_id)
                   transactions)) in
  let total_out :=
    sum (map Transaction.quantity
           (filter (fun t => (Transaction.type t =? "OUT")%string)
                   transactions)) in
  let total_transfers_in :=
    sum (map Transaction.quantity
           (filter (fun t => (Transaction.type t =? "TRANSFER")%string
                             && eq_opt (Transaction.store_id t) store_id)
                   transactions)) in
  let total_transfers_out :=
    sum (map Transaction.quantity
           (filter (fun t => (Transaction.type t =? "TRANSFER")%string
                             && truthy (Transaction.related_store_id t))
                   transactions)) in
  Report (start_date, end_date)
    (Totals total_in total_out total_transfers_in total_transfers_out
       (total_in - total_out))
    transactions.

End Reports.

Module Api.

(** [order_by(Transaction.timestamp.desc())]: rows of equal timestamp
    stay in table order. *)
Fixpoint insert_desc (t : Transaction.t) (l : list Transaction.t)
  : list Transaction.t :=
  match l with
  | [] => [t]
  | u :: l' =>
      if Transaction.timestamp t >=? Transaction.timestamp u
      then t :: u :: l'
      else u :: insert_desc t l'
  end.

Definition order_by_timestamp_desc (l : list Transaction.t)
  : list Transaction.t :=
  fold_right insert_desc [] l.

Record change : Type := Change
  { transaction : Transaction.t;
    current_quantity : Z }.

Inductive response : Type :=
| Json (changes : list change) (timestamp : Z)
| Error (status : Z) (error : string).

Section GetChanges.

(** [datetime.fromisoformat]: [None] when it raises [ValueError]. *)
Variable fromisoformat : string -> option Z.

(** [GET /api/changes?since=...].  [logged_in] is ['user_id' in session];
    [wall_clock] is what [datetime.now()] reads for the response.  The
    400 answer to a parameter that does not parse carries the text of the
    parser's exception after the words given here. *)
Definition get_changes (logged_in : bool) (since_param : option string)
    (wall_clock : Z) (db : Database) : response :=
  if negb logged_in then Error 401 "Authentication required" else
  match since_param with
  | None => Error 400 "since parameter required"
  | Some EmptyString => Error 400 "since parameter required"
  | Some since_param =>
      match fromisoformat since_param with
      | None => Error 400 "Invalid timestamp format"
      | Some since_timestamp =>
          let transactions :=
            firstn 100
              (order_by_timestamp_desc
                 (filter (fun t => Transaction.timestamp t >? since_timestamp)
                         (transactions db))) in
          Json
            (map (fun t =>
                    Change t
                      (InventoryService.quantity_of
                         (find (InventoryItem.matches
                                  (Transaction.store_id t)
                                  (Transaction.product_id t))
                               (inventory_items db))))
                 transactions)
            wall_clock
      end
  end.

End GetChanges.

End Api.

(** ** The dashboard (services/inventory_service.py, read side) *)

Module Dashboard.

(** [query.limit(n)] as SQLite runs it: a negative limit is no limit. *)
Definition limit {A} (n : Z) (l : list A) : list A :=
  if n <? 0 then l else firstn (Z.to_nat n) l.

(** [get_recent_transactions]: the rows of the store when [store_id] is
    true, newest first, cut at [limit]. *)
Definition get_recent_transactions (limit_ : Z) (store_id : option Z)
    (db : Database) : list Transaction.t :=
  let rows :=
    if truthy store_id
    then filter (fun t => eq_opt (Transaction.store_id t) store_id)
                (transactions db)
    else transactions db in
  limit limit_ (Api.order_by_timestamp_desc rows).

Record kpis : Type := Kpis
  { total_products : Z;
    total_units : Z;
    low_stock_count : Z;
    total_stores : Z;
    recent_transactions : list Transaction.t }.

(** [get_dashboard_kpis].  [func.sum(...).scalar() or 0] is 0 on an empty
    table. *)
Definition get_dashboard_kpis (db : Database) : kpis :=
  Kpis
    (Z.of_nat (List.length (products db)))
    (sum (map InventoryItem.quantity (inventory_items db)))
    (Z.of_nat
       (List.length
          (filter (fun ip => InventoryItem.quantity (fst ip)
                             <=? Product.reorder_level (snd ip))
                  (Reports.join_product db))))
    (Z.of_nat (List.length (stores db)))
    (get_recent_transactions 10 None db).

End Dashboard.

(** ** Deleting a product (api.py) *)

Module Endpoints.

Inductive reply : Type :=
| Done (message : string)
| Failed (status : Z) (error : string).

Section HandleProduct.

(** The text of the database error, which the 500 answer carries. *)
Variable integrity_error : string.

(** [DELETE /api/products/<id>].  At the flush of
    [db.session.delete(product)] the relationships of [Product] decide:
    [inventory_items] cascades ([all, delete-orphan]), so the rows of
    the product go with it; [transactions] has no delete cascade, so
    the flush sets [product_id] of the product's transactions to NULL,
    which the column ([nullable=False]) refuses.  The handler then rolls
    back and answers 500. *)
Definition handle_product_delete (logged_in : bool) (product_id : Z)
  : M reply :=
  if negb logged_in then ret (Failed 401 "Authentication required") else
  product <- InventoryService.get_product_by_id product_id ;;
  match product with
  | None => ret (Failed 404 "Product not found")
  | Some _ =>
      log <- query transactions ;;
      if existsb (fun t => Transaction.product_id t =? product_id) log
      then rollback ;; ret (Failed 500 integrity_error)
      else
        with_inventory_items
          (filter (fun i => negb (InventoryItem.product_id i =? product_id))) ;;
        with_products
          (filter (fun p => negb (Product.id p =? product_id))) ;;
        commit ;;
        ret (Done "Product deleted successfully")
  end.

End HandleProduct.

End Endpoints.

(** ** Authentication (api.py) *)

Module User.
(** [created_at] is read by no handler modelled here. *)
Record t : Type := Build
    { id : Z; username : string; password_hash : string; role : string }.
End User.

Module Auth.

(** The Flask session: the three keys [login] sets. *)
Record FlaskSession : Type := Cookie
  { user_id : option Z; username : option string; role : option string }.

(** [session.clear()] *)
Definition cleared : FlaskSession := Cookie None None None.

(** [require_auth]: [None] lets the request through. *)
Definition require_auth (session : FlaskSession) : option (Z * string) :=
  match user_id session with
  | None => Some (401, "Authentication required"%string)
  | Some _ => None
  end.

(** [require_admin] *)
Definition require_admin (session : FlaskSession) : option (Z * string) :=
  match require_auth session with
  | Some auth_error => Some auth_error
  | None =>
      match role session with
      | Some r =>
          if (r =? "admin")%string then None
          else Some (403, "Admin privileges required"%string)
      | None => Some (403, "Admin privileges required"%string)
      end
  end.

(** The JSON body of a login, its two keys strings when present. *)
Record credentials : Type := Credentials
  { given_username : option string; given_password : option string }.

Inductive login_reply : Type :=
| LoggedIn (user : User.t)
| Refused (status : Z) (error : string).

Section Login.

(** [werkzeug.security.check_password_hash] *)
Variable check_password_hash : string -> string -> bool.

(** [User.check_password] *)
Definition check_password (user : User.t) (password : string) : bool :=
  check_password_hash (User.password_hash user) password.

(** [POST /api/auth/login]; [data] is [None] for a missing or empty
    body. *)
Definition login (users : list User.t) (data : option credentials)
    (session : FlaskSession) : login_reply * FlaskSession :=
  match data with
  | Some (Credentials (Some name) (Some password)) =>
      match find (fun u => (User.username u =? name)%string) users with
      | Some user =>
          if check_password user password
          then (LoggedIn user,
                Cookie (Some (User.id user)) (Some (User.username user))
                       (Some (User.role user)))
          else (Refused 401 "Invalid credentials", session)
      | None => (Refused 401 "Invalid credentials", session)
      end
  | _ => (Refused 400 "Username and password required", session)
  end.

End Login.

(** [POST /api/auth/logout] *)
Definition logout (session : FlaskSession) : string * FlaskSession :=
  ("Logout successful"%string, cleared).

End Auth.

(** ** socketio_events.py *)

Module SocketioEvents.

(** [f"store_{store_id}"] *)
Definition store_room (store_id : Z) : string := "store_" ++ str store_id.

Inductive payload : Type :=
| InventoryUpdate (product_id store_id new_qty transaction_id timestamp : Z)
| TransferUpdate (from_store_id to_store_id product_id quantity : Z)
    (transaction_data : InventoryService.transfer_result) (timestamp : Z)
| Message (store_id : option Z) (message : string).

(** One [emit]: to everyone when [room] is [None]. *)
Record emission : Type := Emit
  { event : string; data : payload; room : option string }.

Definition broadcast_inventory_update
    (product_id store_id new_qty transaction_id timestamp : Z)
  : list emission :=
  let update_data :=
    InventoryUpdate product_id store_id new_qty transaction_id timestamp in
  (* Broadcast to all connected clients *)
  [Emit "inventory_update" update_data None;
   (* Also broadcast to store-specific room *)
   Emit "store_inventory_update" update_data (Some (store_room store_id))].

Definition broadcast_transfer_update
    (from_store_id to_store_id product_id quantity : Z)
    (transaction_data : InventoryService.transfer_result) (timestamp : Z)
  : list emission :=
  let transfer_data :=
    TransferUpdate from_store_id to_store_id product_id quantity
      transaction_data timestamp in
  [Emit "transfer_update" transfer_data None;
   Emit "store_transfer_update" transfer_data
     (Some (store_room from_store_id));
   Emit "store_transfer_update" transfer_data
     (Some (store_room to_store_id))].

(** The rooms of one client, as Flask-SocketIO keeps them: a set. *)
Definition join_room (r : string) (rooms : list string) : list string :=
  if existsb (String.eqb r) rooms then rooms else r :: rooms.

Definition leave_room (r : string) (rooms : list string) : list string :=
  filter (fun r' => negb (String.eqb r r')) rooms.

(** A client gets what is emitted to everyone and to a room it is in. *)
Definition reaches (rooms : list string) (e : emission) : bool :=
  match room e with
  | None => true
  | Some r => existsb (String.eqb r) rooms
  end.

(** [handle_join_store]: the rooms of the client afterwards, and the
    event and payload emitted back to it.  [store_id] is
    [data.get('store_id')], an integer when it is there. *)
Definition handle_join_store (session : Auth.FlaskSession)
    (store_id : option Z) (rooms : list string)
  : list string * (string * payload) :=
  match Auth.user_id session with
  | None => (rooms, ("error", Message None "Authentication required"))
  | Some _ =>
      match store_id with
      | Some id =>
          if truthy store_id
          then (join_room (store_room id) rooms,
                ("joined_store",
                 Message store_id ("Joined store " ++ str id ++ " updates")))
          else (rooms, ("error", Message None "Store ID required"))
      | None => (rooms, ("error", Message None "Store ID required"))
      end
  end%string.

(** [handle_leave_store]; it answers only when it has left a room. *)
Definition handle_leave_store (session : Auth.FlaskSession)
    (store_id : option Z) (rooms : list string)
  : list string * option (string * payload) :=
  match Auth.user_id session with
  | None => (rooms, None)
  | Some _ =>
      match store_id with
      | Some id =>
          if truthy store_id
          then (leave_room (store_room id) rooms,
                Some ("left_store",
                      Message store_id
                        ("Left store " ++ str id ++ " updates")))
          else (rooms, None)
      | None => (rooms, None)
      end
  end%string.

End SocketioEvents.

(** ** app.py: the endpoints that broadcast *)

Module App.

Inductive answer (A : Type) : Type :=
| Answer (body : A)
| Refusal (status : Z) (error : string).
Arguments Answer {A} body.
Arguments Refusal {A} status error.

(** The JSON body of [/api/inventory/update]: a body that is there and
    not empty, its ids integers when present. *)
Record update_body : Type := UpdateBody
  { store_id : option Z;
    product_id : option Z;
    delta : option PyValue;
    reason : option string }.

(** [api_update_inventory].  [session_user] is [session['user_id']] when
    the key is there; [data] is [None] for a missing or empty body.  The
    broadcast comes after [update_stock] has returned; a [ValueError]
    goes to the 400 answer. *)
Definition api_update_inventory (session_user : option Z)
    (data : option update_body)
  : M (answer InventoryService.update_result * list SocketioEvents.emission) :=
  match session_user with
  | None => ret (Refusal 401 "Authentication required", [])
  | Some uid =>
      match data with
      | None => ret (Refusal 400 "JSON data required", [])
      | Some data =>
          match store_id data, product_id data, delta data with
          | None, _, _ =>
              ret (Refusal 400 "Missing required field: store_id", [])
          | Some _, None, _ =>
              ret (Refusal 400 "Missing required field: product_id", [])
          | Some _, Some _, None =>
              ret (Refusal 400 "Missing required field: delta", [])
          | Some s, Some p, Some d =>
              try_except
                (result <- InventoryService.update_stock
                             (InventoryService.Build (Some uid)) s p d
                             (match reason data with
                              | Some r => r
                              | None => "Manual update"%string
                              end) ;;
                 (* Broadcast the update via SocketIO *)
                 ret (Answer result,
                      SocketioEvents.broadcast_inventory_update p s
                        (InventoryService.new_quantity result)
                        (InventoryService.transaction_id result)
                        (InventoryService.timestamp result)))
                (fun e => match e with
                          | ValueError msg => ret (Refusal 400 msg, [])
                          end)
          end
      end
  end.

(** The JSON body of [/api/inventory/transfer]. *)
Record transfer_body : Type := TransferBody
  { from_store : option Z;
    to_store : option Z;
    t_product_id : option Z;
    quantity : option Z;
    t_reason : option string }.

(** [api_transfer_inventory] *)
Definition api_transfer_inventory (session_user : option Z)
    (data : option transfer_body)
  : M (answer InventoryService.transfer_result
       * list SocketioEvents.emission) :=
  match session_user with
  | None => ret (Refusal 401 "Authentication required", [])
  | Some uid =>
      match data with
      | None => ret (Refusal 400 "JSON data required", [])
      | Some data =>
          match from_store data, to_store data, t_product_id data,
                quantity data with
          | None, _, _, _ =>
              ret (Refusal 400 "Missing required field: from_store", [])
          | Some _, None, _, _ =>
              ret (Refusal 400 "Missing required field: to_store", [])
          | Some _, Some _, None, _ =>
              ret (Refusal 400 "Missing required field: product_id", [])
          | Some _, Some _, Some _, None =>
              ret (Refusal 400 "Missing required field: quantity", [])
          | Some f, Some t_, Some p, Some q =>
              try_except
                (result <- InventoryService.transfer_stock
                             (InventoryService.Build (Some uid)) f t_ p q
                             (match t_reason data with
                              | Some r => r
                              | None => "Stock transfer"%string
                              end) ;;
                 (* Broadcast the transfer update via SocketIO *)
                 ret (Answer result,
                      SocketioEvents.broadcast_transfer_update f t_ p q
                        result
                        (InventoryService.transfer_timestamp result)))
                (fun e => match e with
                          | ValueError msg => ret (Refusal 400 msg, [])
                          end)
          end
      end
  end.

End App.

(** * Specification *)

Import InventoryService.

(** Stock on hand for a pair: the quantity of its row, 0 when there is
    none. *)
Definition on_hand (db : Database) (s p : Z) : Z :=
  quantity_of (find (InventoryItem.matches s p) (inventory_items db)).

Definition find_store (db : Database) (s : Z) : option Store.t :=
  find (fun x => Store.id x =? s) (stores db).

Definition find_product (db : Database) (p : Z) : option Product.t :=
  find (fun x => Product.id x =? p) (products db).

(** The rows of [inventory_items] once the row of the pair is there. *)
Definition with_row (db : Database) (s p : Z) : list InventoryItem.t :=
  match find (InventoryItem.matches s p) (inventory_items db) with
  | Some _ => inventory_items db
  | None =>
      inventory_items db
      ++ [InventoryItem.Build
            (next_key (map InventoryItem.id (inventory_items db))) s p 0 None]
  end.

(** The database a successful [update_stock] commits. *)
Definition after_update (db : Database) (self : t) (s p d : Z)
    (reason : string) (t_item t_row : Z) : Database :=
  mkDatabase (stores db) (products db)
    (update_first (InventoryItem.matches s p)
       (InventoryItem.set_last_updated t_item)
       (update_first (InventoryItem.matches s p)
          (InventoryItem.set_quantity (on_hand db s p + d))
          (with_row db s p)))
    (transactions db
     ++ [Transaction.Build (next_key (map Transaction.id (transactions db)))
           p s (if d >? 0 then "IN" else "OUT") (Z.abs d) t_row reason None
           (user_id self)]).

(** The two rows a transfer appends. *)
Definition out_row (db : Database) (self : t) (f t_ p q : Z)
    (to_name reason : string) (ts : Z) : Transaction.t :=
  Transaction.Build (next_key (map Transaction.id (transactions db)))
    p f "TRANSFER" q ts ("Transfer OUT to " ++ to_name ++ ": " ++ reason)
    (Some t_) (user_id self).

Definition in_row (rows : list Transaction.t) (self : t) (f t_ p q : Z)
    (from_name reason : string) (ts : Z) : Transaction.t :=
  Transaction.Build (next_key (map Transaction.id rows))
    p t_ "TRANSFER" q ts ("Transfer IN from " ++ from_name ++ ": " ++ reason)
    (Some f) (user_id self).

(** The database a successful [transfer_stock] commits. *)
Definition after_transfer (db : Database) (self : t) (f t_ p q : Z)
    (from_name to_name reason : string) (t_from t_to t_out t_in : Z)
  : Database :=
  let rows :=
    transactions db ++ [out_row db self f t_ p q to_name reason t_out] in
  mkDatabase (stores db) (products db)
    (update_first (InventoryItem.matches t_ p)
       (InventoryItem.set_last_updated t_to)
       (update_first (InventoryItem.matches t_ p)
          (fun i => InventoryItem.set_quantity
                      (InventoryItem.quantity i + q) i)
          (update_first (InventoryItem.matches f p)
             (InventoryItem.set_last_updated t_from)
             (update_first (InventoryItem.matches f p)
                (fun i => InventoryItem.set_quantity
                            (InventoryItem.quantity i - q) i)
                (with_row db t_ p)))))
    (rows ++ [in_row rows self f t_ p q from_name reason t_in]).

(** ** The ledger *)

(** The signed quantity of a row.  The two rows of a transfer have the
    same type and differ in the note [transfer_stock] writes: the row of
    the sending store reads [Transfer OUT to ...], the row of the
    receiving store [Transfer IN from ...]. *)
Definition signed_quantity (t : Transaction.t) : Z :=
  if (Transaction.type t =? "IN")%string then Transaction.quantity t
  else if (Transaction.type t =? "OUT")%string then - Transaction.quantity t
  else if (Transaction.type t =? "TRANSFER")%string then
    if startswith "Transfer IN from " (Transaction.note t)
    then Transaction.quantity t
    else if startswith "Transfer OUT to " (Transaction.note t)
    then - Transaction.quantity t
    else 0
  else 0.

Definition recorded_against (s p : Z) (t : Transaction.t) : bool :=
  (Transaction.store_id t =? s) && (Transaction.product_id t =? p).

(** Signed sum of the rows recorded against a pair. *)
Definition ledger_sum (db : Database) (s p : Z) : Z :=
  sum (map signed_quantity
         (filter (recorded_against s p) (transactions db))).

Definition pair_of (i : InventoryItem.t) : Z * Z :=
  (InventoryItem.store_id i, InventoryItem.product_id i).

(** [UniqueConstraint('store_id', 'product_id')] *)
Definition unique_store_product (db : Database) : Prop :=
  NoDup (map pair_of (inventory_items db)).

(** Every row of [inventory_items] holds the signed sum of its pair. *)
Definition items_match_ledger (db : Database) : Prop :=
  Forall
    (fun i =>
       InventoryItem.quantity i
       = ledger_sum db (InventoryItem.store_id i) (InventoryItem.product_id i))
    (inventory_items db).

(** The same for every pair, a pair without a row counting as 0, on a
    table that respects its unique constraint. *)
Definition ledger_consistent (db : Database) : Prop :=
  unique_store_product db
  /\ forall s p, on_hand db s p = ledger_sum db s p.

Definition non_negative (db : Database) : Prop :=
  Forall (fun i => 0 <= InventoryItem.quantity i) (inventory_items db).

(** Stock on hand in a list of rows. *)
Definition stock (l : list InventoryItem.t) (s p : Z) : Z :=
  quantity_of (find (InventoryItem.matches s p) l).

(** A function on rows which leaves the pair alone. *)
Definition keeps_pair (f : InventoryItem.t -> InventoryItem.t) : Prop :=
  forall i, pair_of (f i) = pair_of i.

(** ** Sequences of calls *)

Inductive call : Type :=
| UpdateStock (self : t) (store_id product_id : Z) (delta : PyValue)
    (reason : string)
| TransferStock (self : t) (from_store_id to_store_id product_id quantity : Z)
    (reason : string).

(** A call is served on a fresh session over the database as the last
    call left it; the clock goes on. *)
Definition run_call (clk : nat -> Z) (c : call) (st : Database * nat)
  : Database * nat :=
  let s := open_session (fst st) clk (snd st) in
  let s' :=
    match c with
    | UpdateStock self store_id product_id delta reason =>
        snd (update_stock self store_id product_id delta reason s)
    | TransferStock self f t_ product_id quantity reason =>
        snd (transfer_stock self f t_ product_id quantity reason s)
    end in
  (committed s', reads s').

Definition run_calls (clk : nat -> Z) (cs : list call) (st : Database * nat)
  : Database * nat :=
  fold_left (fun st c => run_call clk c st) cs st.

(** What a call leaves behind: the database it found, or the one its
    commit wrote. *)
Inductive outcome (clk : nat -> Z) (db : Database) (n : nat)
  : call -> Database * nat -> Prop :=
| rolled_back c :
    outcome clk db n c (db, n)
| updated self s p d reason :
    d <> 0 -> 0 <= on_hand db s p + d ->
    outcome clk db n (UpdateStock self s p (PyInt d) reason)
      (after_update db self s p d reason (clk n) (clk (S n)), S (S n))
| transferred self f t_ p q reason source from_store to_store :
    f <> t_ -> 0 < q ->
    find (InventoryItem.matches f p) (inventory_items db) = Some source ->
    q <= InventoryItem.quantity source ->
    find_store db f = Some from_store ->
    find_store db t_ = Some to_store ->
    outcome clk db n (TransferStock self f t_ p q reason)
      (after_transfer db self f t_ p q (Store.name from_store)
         (Store.name to_store) reason
         (clk n) (clk (S n)) (clk (S (S n))) (clk (S (S (S n)))),
       S (S (S (S n)))).

(** ** What the calls keep, beyond the ledger sums *)

(** The pairs a call addresses. *)
Definition addresses (c : call) (s p : Z) : Prop :=
  match c with
  | UpdateStock _ store_id product_id _ _ => (store_id, product_id) = (s, p)
  | TransferStock _ f t_ product_id _ _ =>
      (f, product_id) = (s, p) \/ (t_, product_id) = (s, p)
  end.

(** Primary keys are unique in both tables the calls write. *)
Definition keys_unique (db : Database) : Prop :=
  NoDup (map InventoryItem.id (inventory_items db))
  /\ NoDup (map Transaction.id (transactions db)).

(** A clock which never goes back. *)
Definition monotone (clk : nat -> Z) : Prop :=
  forall i j, (i <= j)%nat -> clk i <= clk j.

Definition not_newer (a b : Transaction.t) : Prop :=
  Transaction.timestamp a <= Transaction.timestamp b.

(** The log is in the order of its timestamps, none of them later than
    the next reading of the clock. *)
Definition chronological (clk : nat -> Z) (st : Database * nat) : Prop :=
  StronglySorted not_newer (transactions (fst st))
  /\ Forall (fun t => Transaction.timestamp t <= clk (snd st))
            (transactions (fst st)).

(** Units on hand over all stores, as the dashboard counts them. *)
Definition units (l : list InventoryItem.t) : Z :=
  sum (map InventoryItem.quantity l).

(** ** Requests: the calls of the ledger and the catalog *)

Inductive request : Type :=
| LedgerCall (c : call)
| AddProduct (self : t) (sku name category : string) (reorder_level : Z)
| UpdateProduct (self : t) (product_id : Z)
    (kwargs : list (string * kwvalue))
| DeleteProduct (logged_in : bool) (product_id : Z).

Definition run_request (clk : nat -> Z) (r : request) (st : Database * nat)
  : Database * nat :=
  let s := open_session (fst st) clk (snd st) in
  match r with
  | LedgerCall c => run_call clk c st
  | AddProduct self sku name category reorder_level =>
      let s' := snd (add_product self sku name category reorder_level s) in
      (committed s', reads s')
  | UpdateProduct self product_id kwargs =>
      let s' := snd (update_product self product_id kwargs s) in
      (committed s', reads s')
  | DeleteProduct logged_in product_id =>
      let s' := snd (Endpoints.handle_product_delete "IntegrityError"
                       logged_in product_id s) in
      (committed s', reads s')
  end.

Definition run_requests (clk : nat -> Z) (rs : list request)
    (st : Database * nat) : Database * nat :=
  fold_left (fun st r => run_request clk r st) rs st.

(** The catalog respects its keys: no two products share a SKU or an
    id. *)
Definition catalog_unique (db : Database) : Prop :=
  NoDup (map Product.sku (products db))
  /\ NoDup (map Product.id (products db)).

(** The store and the product of these ids exist. *)
Definition resolves (db : Database) (store_id product_id : Z) : Prop :=
  find_store db store_id <> None /\ find_product db product_id <> None.

(** Every inventory row and every transaction names a store and a
    product that exist. *)
Definition references_resolve (db : Database) : Prop :=
  Forall (fun i => resolves db (InventoryItem.store_id i)
                     (InventoryItem.product_id i))
         (inventory_items db)
  /\ Forall (fun t => resolves db (Transaction.store_id t)
                        (Transaction.product_id t))
            (transactions db).

(** The catalog after [add_product] and [update_product] commit, and the
    database after a product is deleted. *)
Definition with_new_product (db : Database) (sku name category : string)
    (reorder_level : Z) : Database :=
  mkDatabase (stores db)
    (products db
     ++ [Product.Build (next_key (map Product.id (products db))) sku name
           category reorder_level])
    (inventory_items db) (transactions db).

Definition with_updated_product (db : Database) (product_id : Z)
    (kwargs : list (string * kwvalue)) : Database :=
  mkDatabase (stores db)
    (update_first (fun p => Product.id p =? product_id)
       (apply_kwargs kwargs) (products db))
    (inventory_items db) (transactions db).

Definition without_product (db : Database) (product_id : Z) : Database :=
  mkDatabase (stores db)
    (filter (fun p => negb (Product.id p =? product_id)) (products db))
    (filter (fun i => negb (InventoryItem.product_id i =? product_id))
            (inventory_items db))
    (transactions db).

Definition has_history (db : Database) (product_id : Z) : bool :=
  existsb (fun t => Transaction.product_id t =? product_id) (transactions db).

(** ** Sample data *)

Definition clerk : InventoryService.t := InventoryService.Build (Some 1).

(** A clock which advances between any two readings. *)
Definition ticking (n : nat) : Z := 1000 + Z.of_nat n.

(** Two stores, one product, 12 units of it in store 1 that came in with
    one IN row. *)
Definition shop : Database :=
  mkDatabase
    [Store.Build 1 "Downtown" "Main Street";
     Store.Build 2 "Mall" "Ring Road"]
    [Product.Build 1 "LAP-001" "Gaming Laptop Pro" "Electronics" 10]
    [InventoryItem.Build 1 1 1 12 (Some 0)]
    [Transaction.Build 1 1 1 "IN" 12 0 "Initial stock" None (Some 1)].

(** The same shop when the row of the pair is gone and its log is not. *)
Definition orphaned : Database :=
  mkDatabase (stores shop) (products shop) [] (transactions shop).

(** A sale, a transfer, and calls that fail. *)
Definition busy_day : list call :=
  [UpdateStock clerk 1 1 (PyInt (-5)) "sale";
   TransferStock clerk 1 2 1 5 "restock";
   UpdateStock clerk 1 1 (PyInt (-50)) "too much";
   TransferStock clerk 2 2 1 1 "nowhere";
   UpdateStock clerk 2 1 (PyNotInt "1.5") "not a count"].

(** The shop at the end of the day. *)
Definition closing : Database := fst (run_calls ticking busy_day (shop, 0%nat)).

(** A parser for two timestamps, standing for [datetime.fromisoformat]. *)
Definition parse_two (s : string) : option Z :=
  if (s =? "1970-01-01T00:00:00.001001")%string then Some 1001
  else if (s =? "1970-01-01T00:00:00")%string then Some 0
  else None.

(** Newest first. *)
Definition not_older (a b : Transaction.t) : Prop :=
  Transaction.timestamp b <= Transaction.timestamp a.

(** A day with the catalog: a product comes, is stocked, renamed, one
    request is refused, one product goes. *)
Definition office_day : list request :=
  [AddProduct clerk "PHN-002" "Smartphone X1" "Electronics" 15;
   AddProduct clerk "LAP-001" "Another laptop" "Electronics" 3;
   LedgerCall (UpdateStock clerk 2 2 (PyInt 30) "delivery");
   UpdateProduct clerk 2 [("name", KwStr "Smartphone X2");
                          ("sku", KwStr "LAP-001");
                          ("reorder_level", KwInt 20)]%string;
   AddProduct clerk "TAB-003" "Tablet Air" "Electronics" 8;
   DeleteProduct true 2;
   DeleteProduct true 3;
   LedgerCall (TransferStock clerk 2 1 2 10 "balance")].

(** * Properties *)

(** ** What a call computes on a fresh session *)

Ltac whd_call t :=
  eval lazy head beta iota zeta delta
    [update_stock update_stock_body transfer_stock transfer_stock_body
     try_except bind ret raise raise_if query with_inventory_items
     add_inventory_item setattr_item add_transaction commit rollback now
     get_store_by_id get_product_by_id get_inventory_item open_session
     flush fst snd]
  in t.

(** One step of a call: reduce the left side up to the next test, and
    read the session's fields. *)
Ltac run :=
  match goal with
  | |- ?l = ?r => let l' := whd_call l in change (l' = r)
  end;
  unfold open_session;
  cbn [committed view new_transactions clock reads app
       stores products inventory_items transactions].

Lemma update_stock_run self s p delta reason db clk n :
  update_stock self s p delta reason (open_session db clk n) =
  match delta with
  | PyNotInt _ =>
      (Raise (ValueError "Delta must be a non-zero integer"),
       open_session db clk n)
  | PyInt d =>
      if d =? 0
      then (Raise (ValueError "Delta must be a non-zero integer"),
            open_session db clk n)
      else
        match find_store db s, find_product db p with
        | None, _ =>
            (Raise (ValueError ("Store with ID " ++ str s ++ " not found")),
             open_session db clk n)
        | Some _, None =>
            (Raise (ValueError ("Product with ID " ++ str p ++ " not found")),
             open_session db clk n)
        | Some _, Some _ =>
            if on_hand db s p + d <? 0
            then (Raise (ValueError
                           ("Insufficient stock. Current: "
                            ++ str (on_hand db s p)
                            ++ ", Requested: " ++ str (Z.abs d))),
                  open_session db clk n)
            else
              let db' :=
                after_update db self s p d reason (clk n) (clk (S n)) in
              (Ok (UpdateResult (on_hand db s p + d)
                     (next_key (map Transaction.id (transactions db)))
                     (clk (S n))
                     (find (InventoryItem.matches s p) (inventory_items db'))),
               open_session db' clk (S (S n)))
        end
  end.
Proof.
  destruct delta as [d|repr]; [|reflexivity].
  run. destruct (d =? 0); [reflexivity|]. run.
  unfold find_store, find_product, after_update, with_row, on_hand.
  destruct (find _ (stores db)); [|reflexivity]. run.
  destruct (find _ (products db)); [|reflexivity]. run.
  destruct (find _ (inventory_items db)) as [i|]; run;
    cbn [quantity_of InventoryItem.quantity];
    destruct (_ <? 0); reflexivity.
Qed.

Lemma transfer_stock_run self f t_ p q reason db clk n :
  transfer_stock self f t_ p q reason (open_session db clk n) =
  if q <=? 0
  then (Raise (ValueError "Transfer quantity must be positive"),
        open_session db clk n)
  else if f =? t_
  then (Raise (ValueError "Cannot transfer to the same store"),
        open_session db clk n)
  else
    match find_store db f, find_store db t_, find_product db p with
    | None, _, _ =>
        (Raise (ValueError ("Source store with ID " ++ str f ++ " not found")),
         open_session db clk n)
    | Some _, None, _ =>
        (Raise (ValueError
                  ("Destination store with ID " ++ str t_ ++ " not found")),
         open_session db clk n)
    | Some _, Some _, None =>
        (Raise (ValueError ("Product with ID " ++ str p ++ " not found")),
         open_session db clk n)
    | Some from_store, Some to_store, Some _ =>
        if match find (InventoryItem.matches f p) (inventory_items db) with
           | None => true
           | Some i => InventoryItem.quantity i <? q
           end
        then (Raise (ValueError
                       ("Insufficient stock at source store. Current: "
                        ++ str (on_hand db f p)
                        ++ ", Requested: " ++ str q)),
              open_session db clk n)
        else
          let db' :=
            after_transfer db self f t_ p q (Store.name from_store)
              (Store.name to_store) reason
              (clk n) (clk (S n)) (clk (S (S n))) (clk (S (S (S n)))) in
          (Ok (TransferResult
                 (SideResult (on_hand db' f p)
                    (next_key (map Transaction.id (transactions db)))
                    (find (InventoryItem.matches f p) (inventory_items db')))
                 (SideResult (on_hand db' t_ p)
                    (next_key
                       (map Transaction.id
                          (transactions db
                           ++ [out_row db self f t_ p q (Store.name to_store)
                                 reason (clk (S (S n)))])))
                    (find (InventoryItem.matches t_ p) (inventory_items db')))
                 (clk (S (S n)))),
           open_session db' clk (S (S (S (S n)))))
    end.
Proof.
  run. destruct (q <=? 0); [reflexivity|]. run.
  destruct (f =? t_); [reflexivity|]. run.
  unfold find_store, find_product, after_transfer, with_row, on_hand.
  destruct (find _ (stores db)) as [from_store|]; [|reflexivity]. run.
  destruct (find _ (stores db)) as [to_store|]; [|reflexivity]. run.
  destruct (find _ (products db)); [|reflexivity]. run.
  destruct (find (InventoryItem.matches f p) (inventory_items db)) as [i|];
    [|reflexivity].
  run. destruct (_ <? q); [reflexivity|]. run.
  destruct (find (InventoryItem.matches t_ p) (inventory_items db));
    reflexivity.
Qed.

(** ** Rows, pairs and [update_first] *)

Section UpdateFirst.

Context {A : Type}.
Variables (test : A -> bool) (f : A -> A).

Lemma find_update_first_same (l : list A) :
  (forall x, test (f x) = test x) ->
  find test (update_first test f l) = option_map f (find test l).
Proof.
  intros Hf. induction l as [|x l IH]; [reflexivity|].
  cbn [update_first find]. destruct (test x) eqn:E.
  - cbn [find]. now rewrite Hf, E.
  - cbn [find]. now rewrite E.
Qed.

Lemma find_update_first_other (test' : A -> bool) (l : list A) :
  (forall x, test' (f x) = test' x) ->
  (forall x, test x = true -> test' x = false) ->
  find test' (update_first test f l) = find test' l.
Proof.
  intros Hf Hd. induction l as [|x l IH]; [reflexivity|].
  cbn [update_first find]. destruct (test x) eqn:E.
  - cbn [find]. now rewrite Hf, (Hd x E).
  - cbn [find]. now rewrite IH.
Qed.

Lemma map_update_first {B} (g : A -> B) (l : list A) :
  (forall x, g (f x) = g x) ->
  map g (update_first test f l) = map g l.
Proof.
  intros Hg. induction l as [|x l IH]; [reflexivity|].
  cbn [update_first]. destruct (test x); cbn [map]; congruence.
Qed.

Lemma Forall_update_first (P : A -> Prop) (l : list A) :
  Forall P l ->
  (forall x, find test l = Some x -> P (f x)) ->
  Forall P (update_first test f l).
Proof.
  induction l as [|x l IH]; intros Hl Hx; [constructor|].
  inversion Hl as [|? ? Px Pl]; subst.
  cbn [update_first]. cbn [find] in Hx. destruct (test x).
  - constructor; auto.
  - constructor; auto.
Qed.

End UpdateFirst.

Lemma find_app {A} (test : A -> bool) (l l' : list A) :
  find test (l ++ l') =
  match find test l with
  | Some x => Some x
  | None => find test l'
  end.
Proof.
  induction l as [|x l IH]; [reflexivity|].
  cbn [app find]. now destruct (test x).
Qed.

Lemma matches_pair s p i :
  InventoryItem.matches s p i = true <-> pair_of i = (s, p).
Proof.
  unfold InventoryItem.matches, pair_of.
  rewrite andb_true_iff, !Z.eqb_eq. split.
  - intros [-> ->]. reflexivity.
  - intros H. inversion H. auto.
Qed.

Lemma matches_other s p s' p' i :
  (s, p) <> (s', p') ->
  InventoryItem.matches s p i = true ->
  InventoryItem.matches s' p' i = false.
Proof.
  intros Hne H. apply matches_pair in H.
  destruct (InventoryItem.matches s' p' i) eqn:E; [|reflexivity].
  apply matches_pair in E. congruence.
Qed.

Lemma keeps_pair_matches f s p i :
  keeps_pair f ->
  InventoryItem.matches s p (f i) = InventoryItem.matches s p i.
Proof.
  intros Hf. specialize (Hf i). unfold pair_of in Hf. inversion Hf as [[H1 H2]].
  unfold InventoryItem.matches. now rewrite H1, H2.
Qed.

Lemma keeps_pair_set_quantity g :
  keeps_pair (fun i => InventoryItem.set_quantity (g i) i).
Proof. intros i. reflexivity. Qed.

Lemma keeps_pair_set_last_updated ts :
  keeps_pair (InventoryItem.set_last_updated ts).
Proof. intros i. reflexivity. Qed.

Create HintDb ledger.
#[local] Hint Resolve keeps_pair_set_quantity keeps_pair_set_last_updated
  : ledger.

Lemma stock_update_other f s p s' p' l :
  keeps_pair f -> (s, p) <> (s', p') ->
  stock (update_first (InventoryItem.matches s p) f l) s' p' = stock l s' p'.
Proof.
  intros Hf Hne. unfold stock. rewrite find_update_first_other; auto.
  - intros x. now apply keeps_pair_matches.
  - intros x. now apply matches_other.
Qed.

Lemma stock_update_same f s p l :
  keeps_pair f ->
  stock (update_first (InventoryItem.matches s p) f l) s p =
  quantity_of (option_map f (find (InventoryItem.matches s p) l)).
Proof.
  intros Hf. unfold stock. rewrite find_update_first_same; auto.
  intros x. now apply keeps_pair_matches.
Qed.

Lemma find_with_row db s p :
  exists i, find (InventoryItem.matches s p) (with_row db s p) = Some i
            /\ InventoryItem.quantity i = on_hand db s p.
Proof.
  unfold with_row, on_hand.
  destruct (find _ (inventory_items db)) as [i|] eqn:E.
  - exists i. now rewrite E.
  - eexists. rewrite find_app, E. cbn [find].
    unfold InventoryItem.matches at 1. cbn [InventoryItem.store_id
      InventoryItem.product_id]. rewrite !Z.eqb_refl. cbn [andb].
    split; reflexivity.
Qed.

Lemma stock_with_row db s p s' p' :
  stock (with_row db s p) s' p' = on_hand db s' p'.
Proof.
  unfold with_row, on_hand, stock.
  destruct (find (InventoryItem.matches s p) (inventory_items db)) as [i|] eqn:E;
    [reflexivity|].
  rewrite find_app.
  destruct (find (InventoryItem.matches s' p') (inventory_items db)) eqn:E';
    [reflexivity|].
  cbn [find]. now destruct (InventoryItem.matches s' p' _).
Qed.

Lemma pairs_with_row db s p :
  unique_store_product db ->
  NoDup (map pair_of (with_row db s p)).
Proof.
  unfold unique_store_product, with_row. intros H.
  destruct (find _ (inventory_items db)) eqn:E; [exact H|].
  rewrite map_app. cbn [map]. unfold pair_of at 2.
  cbn [InventoryItem.store_id InventoryItem.product_id].
  apply NoDup_rev in H. rewrite <- (rev_involutive (_ ++ _)).
  apply NoDup_rev. rewrite rev_app_distr. cbn [rev app].
  constructor; [|exact H].
  rewrite <- in_rev. intros Hin. apply in_map_iff in Hin.
  destruct Hin as [x [Hx Hin]].
  pose proof (find_none _ _ E x Hin) as Hf.
  apply matches_pair in Hx. congruence.
Qed.

Lemma pair_eq_dec (a b : Z * Z) : {a = b} + {a <> b}.
Proof. decide equality; apply Z.eq_dec. Qed.

(** ** The effect of a committed call on stock and ledger *)

Lemma sum_app l l' : sum (l ++ l') = sum l + sum l'.
Proof.
  unfold sum. induction l as [|x l IH]; cbn [app fold_right]; lia.
Qed.

Lemma ledger_sum_snoc db db' r s p :
  transactions db' = transactions db ++ [r] ->
  ledger_sum db' s p =
  ledger_sum db s p + if recorded_against s p r then signed_quantity r else 0.
Proof.
  intros E. unfold ledger_sum. rewrite E, filter_app, map_app, sum_app.
  cbn [filter]. destruct (recorded_against s p r); cbn [map sum fold_right]; lia.
Qed.

Lemma recorded_against_pair s p r :
  recorded_against s p r = true
  <-> (Transaction.store_id r, Transaction.product_id r) = (s, p).
Proof.
  unfold recorded_against. rewrite andb_true_iff, !Z.eqb_eq. split.
  - intros [-> ->]. reflexivity.
  - intros H. inversion H. auto.
Qed.

Lemma signed_quantity_update key p s d ts reason uid :
  d <> 0 ->
  signed_quantity
    (Transaction.Build key p s (if d >? 0 then "IN" else "OUT") (Z.abs d)
       ts reason None uid) = d.
Proof.
  intros Hd. unfold signed_quantity. cbn [Transaction.type Transaction.quantity].
  destruct (Z.gtb_spec d 0); cbn [String.eqb Ascii.eqb Bool.eqb]; lia.
Qed.

Lemma signed_quantity_out_row db self f t_ p q to_name reason ts :
  signed_quantity (out_row db self f t_ p q to_name reason ts) = - q.
Proof. reflexivity. Qed.

Lemma signed_quantity_in_row rows self f t_ p q from_name reason ts :
  signed_quantity (in_row rows self f t_ p q from_name reason ts) = q.
Proof. reflexivity. Qed.

Lemma on_hand_after_update db self s p d reason t1 t2 s' p' :
  on_hand (after_update db self s p d reason t1 t2) s' p' =
  if pair_eq_dec (s, p) (s', p')
  then on_hand db s p + d
  else on_hand db s' p'.
Proof.
  unfold after_update, on_hand at 1. cbn [inventory_items].
  fold (stock (update_first (InventoryItem.matches s p)
                 (InventoryItem.set_last_updated t1)
                 (update_first (InventoryItem.matches s p)
                    (InventoryItem.set_quantity (on_hand db s p + d))
                    (with_row db s p))) s' p').
  destruct (pair_eq_dec (s, p) (s', p')) as [E|Hne].
  - inversion E; subst s' p'.
    rewrite stock_update_same by auto with ledger.
    rewrite find_update_first_same
      by (intros x; apply keeps_pair_matches;
          apply (keeps_pair_set_quantity (fun _ => on_hand db s p + d))).
    destruct (find_with_row db s p) as [i [-> _]]. reflexivity.
  - rewrite stock_update_other by auto with ledger.
    rewrite stock_update_other
      by (auto; apply (keeps_pair_set_quantity (fun _ => on_hand db s p + d))).
    apply stock_with_row.
Qed.

Lemma ledger_sum_after_update db self s p d reason t1 t2 s' p' :
  d <> 0 ->
  ledger_sum (after_update db self s p d reason t1 t2) s' p' =
  if pair_eq_dec (s, p) (s', p')
  then ledger_sum db s p + d
  else ledger_sum db s' p'.
Proof.
  intros Hd. unfold after_update.
  erewrite (ledger_sum_snoc db) by (cbn [transactions]; reflexivity).
  rewrite signed_quantity_update by exact Hd.
  destruct (pair_eq_dec (s, p) (s', p')) as [E|Hne].
  - inversion E; subst s' p'.
    unfold recorded_against.
    cbn [Transaction.store_id Transaction.product_id].
    now rewrite !Z.eqb_refl.
  - destruct (recorded_against s' p' _) eqn:R; [|lia].
    apply recorded_against_pair in R.
    cbn [Transaction.store_id Transaction.product_id] in R. congruence.
Qed.

Lemma pairs_after_update db self s p d reason t1 t2 :
  unique_store_product db ->
  unique_store_product (after_update db self s p d reason t1 t2).
Proof.
  intros H. unfold unique_store_product, after_update. cbn [inventory_items].
  rewrite !map_update_first.
  - now apply pairs_with_row.
  - intros x. reflexivity.
  - intros x. reflexivity.
Qed.

Lemma after_update_consistent db self s p d reason t1 t2 :
  d <> 0 ->
  ledger_consistent db ->
  ledger_consistent (after_update db self s p d reason t1 t2).
Proof.
  intros Hd [Hu Hl]. split; [now apply pairs_after_update|].
  intros s' p'.
  rewrite on_hand_after_update, ledger_sum_after_update by exact Hd.
  destruct (pair_eq_dec _ _); now rewrite Hl.
Qed.

Lemma after_update_non_negative db self s p d reason t1 t2 :
  0 <= on_hand db s p + d ->
  non_negative db ->
  non_negative (after_update db self s p d reason t1 t2).
Proof.
  intros Hq H. unfold non_negative, after_update. cbn [inventory_items].
  apply Forall_update_first; [apply Forall_update_first|].
  - unfold with_row. destruct (find _ (inventory_items db)); [exact H|].
    apply Forall_app. split; [exact H|]. constructor; [|constructor].
    cbn [InventoryItem.quantity]. lia.
  - intros x _. exact Hq.
  - intros x Hx. cbn [InventoryItem.set_last_updated InventoryItem.quantity].
    rewrite find_update_first_same in Hx
      by (intros y; apply keeps_pair_matches;
          apply (keeps_pair_set_quantity (fun _ => on_hand db s p + d))).
    destruct (find_with_row db s p) as [i [Ei _]]. rewrite Ei in Hx.
    cbn [option_map] in Hx. inversion Hx; subst x. exact Hq.
Qed.

Lemma Forall_update_first_each {A} (test : A -> bool) (f : A -> A)
    (P : A -> Prop) (l : list A) :
  Forall P l -> (forall x, P x -> P (f x)) ->
  Forall P (update_first test f l).
Proof.
  intros Hl Hf. apply Forall_update_first; [exact Hl|].
  intros x Hx. apply Hf. apply find_some in Hx.
  rewrite Forall_forall in Hl. now apply Hl.
Qed.

(** A write of the quantity followed by the timestamp, read back. *)
Lemma stock_touch l s p h ts i :
  keeps_pair h ->
  find (InventoryItem.matches s p) l = Some i ->
  stock (update_first (InventoryItem.matches s p)
           (InventoryItem.set_last_updated ts)
           (update_first (InventoryItem.matches s p) h l)) s p
  = InventoryItem.quantity (h i).
Proof.
  intros Hh E. rewrite stock_update_same by auto with ledger.
  rewrite find_update_first_same
    by (intros x; now apply keeps_pair_matches).
  now rewrite E.
Qed.

Lemma find_update_other_pair f s p s' p' l :
  keeps_pair f -> (s, p) <> (s', p') ->
  find (InventoryItem.matches s' p')
       (update_first (InventoryItem.matches s p) f l)
  = find (InventoryItem.matches s' p') l.
Proof.
  intros Hf Hne. apply find_update_first_other.
  - intros x. now apply keeps_pair_matches.
  - intros x. now apply matches_other.
Qed.

Lemma find_with_row_kept db s p s' p' i :
  find (InventoryItem.matches s' p') (inventory_items db) = Some i ->
  find (InventoryItem.matches s' p') (with_row db s p) = Some i.
Proof.
  intros E. unfold with_row.
  destruct (find (InventoryItem.matches s p) _); [exact E|].
  now rewrite find_app, E.
Qed.

Section Transfer.

Variables (db : Database) (self : t) (f t_ p q : Z).
Variables (from_name to_name reason : string) (t1 t2 t3 t4 : Z).
Variable source : InventoryItem.t.

Hypothesis distinct : f <> t_.
Hypothesis source_row :
  find (InventoryItem.matches f p) (inventory_items db) = Some source.

Let db' :=
  after_transfer db self f t_ p q from_name to_name reason t1 t2 t3 t4.

Lemma on_hand_after_transfer s' p' :
  on_hand db' s' p' =
  if pair_eq_dec (f, p) (s', p') then on_hand db f p - q
  else if pair_eq_dec (t_, p) (s', p') then on_hand db t_ p + q
  else on_hand db s' p'.
Proof.
  assert (Hft : (t_, p) <> (f, p)) by congruence.
  unfold db', after_transfer, on_hand at 1. cbn [inventory_items].
  match goal with
  | |- quantity_of (find _ ?l) = _ => fold (stock l s' p')
  end.
  destruct (pair_eq_dec (f, p) (s', p')) as [E|Hf].
  - inversion E; subst s' p'.
    rewrite !(stock_update_other _ t_ p f p) by auto with ledger.
    rewrite (stock_touch _ f p _ t1 source);
      [|apply keeps_pair_set_quantity|now apply find_with_row_kept].
    cbn [InventoryItem.set_quantity InventoryItem.quantity].
    unfold on_hand. now rewrite source_row.
  - destruct (pair_eq_dec (t_, p) (s', p')) as [E|Ht].
    + inversion E; subst s' p'.
      destruct (find_with_row db t_ p) as [j [Ej Hj]].
      rewrite (stock_touch _ t_ p _ t2 j);
        [|apply keeps_pair_set_quantity|].
      2:{ rewrite !find_update_other_pair; auto with ledger; congruence. }
      cbn [InventoryItem.set_quantity InventoryItem.quantity]. lia.
    + rewrite !(stock_update_other _ t_ p s' p') by auto with ledger.
      rewrite !(stock_update_other _ f p s' p') by auto with ledger.
      apply stock_with_row.
Qed.

Lemma ledger_sum_after_transfer s' p' :
  ledger_sum db' s' p' =
  if pair_eq_dec (f, p) (s', p') then ledger_sum db f p - q
  else if pair_eq_dec (t_, p) (s', p') then ledger_sum db t_ p + q
  else ledger_sum db s' p'.
Proof.
  unfold db', after_transfer, ledger_sum. cbn [transactions].
  rewrite !filter_app, !map_app, !sum_app. cbn [filter].
  set (o := out_row _ _ _ _ _ _ _ _ _).
  set (i := in_row _ _ _ _ _ _ _ _ _).
  assert (Ho : recorded_against s' p' o = true <-> (f, p) = (s', p'))
    by apply recorded_against_pair.
  assert (Hi : recorded_against s' p' i = true <-> (t_, p) = (s', p'))
    by apply recorded_against_pair.
  assert (So : signed_quantity o = - q) by reflexivity.
  assert (Si : signed_quantity i = q) by reflexivity.
  destruct (pair_eq_dec (f, p) (s', p')) as [E|Hf].
  - assert (Hn : (t_, p) <> (s', p')) by congruence.
    destruct (recorded_against s' p' o); [|now apply Ho in E].
    destruct (recorded_against s' p' i);
      [exfalso; apply Hn; now apply Hi|].
    inversion E; subst s' p'.
    cbn [map sum fold_right]. rewrite So. unfold sum. lia.
  - destruct (recorded_against s' p' o);
      [exfalso; apply Hf; now apply Ho|].
    destruct (pair_eq_dec (t_, p) (s', p')) as [E|Ht].
    + destruct (recorded_against s' p' i); [|now apply Hi in E].
      inversion E; subst s' p'.
      cbn [map sum fold_right]. rewrite Si. unfold sum. lia.
    + destruct (recorded_against s' p' i);
        [exfalso; apply Ht; now apply Hi|].
      cbn [map sum fold_right]. unfold sum. lia.
Qed.

Lemma after_transfer_consistent :
  ledger_consistent db -> ledger_consistent db'.
Proof.
  intros [Hu Hl]. split.
  - unfold unique_store_product, db', after_transfer. cbn [inventory_items].
    rewrite !map_update_first by (intros x; reflexivity).
    now apply pairs_with_row.
  - intros s' p'. rewrite on_hand_after_transfer, ledger_sum_after_transfer.
    repeat destruct (pair_eq_dec _ _); now rewrite Hl.
Qed.

Lemma after_transfer_non_negative :
  0 < q -> q <= InventoryItem.quantity source ->
  non_negative db -> non_negative db'.
Proof.
  intros Hq Hs H. unfold non_negative, db', after_transfer.
  cbn [inventory_items].
  apply Forall_update_first_each; [|intros x Hx; exact Hx].
  apply Forall_update_first_each;
    [|intros x Hx; cbn [InventoryItem.set_quantity InventoryItem.quantity];
      lia].
  apply Forall_update_first_each; [|intros x Hx; exact Hx].
  apply Forall_update_first.
  - unfold with_row.
    destruct (find (InventoryItem.matches t_ p) (inventory_items db));
      [exact H|].
    apply Forall_app. split; [exact H|]. constructor; [|constructor].
    cbn [InventoryItem.quantity]. lia.
  - intros x Hx. rewrite (find_with_row_kept db t_ p f p source) in Hx
      by exact source_row.
    inversion Hx; subst x.
    cbn [InventoryItem.set_quantity InventoryItem.quantity]. lia.
Qed.

End Transfer.

(** ** Every call keeps the ledger in step *)

Lemma source_row_of_stock db f p q :
  0 < q -> q <= on_hand db f p ->
  exists i, find (InventoryItem.matches f p) (inventory_items db) = Some i
            /\ q <= InventoryItem.quantity i.
Proof.
  unfold on_hand. intros Hq Hle.
  destruct (find _ (inventory_items db)) as [i|]; cbn [quantity_of] in Hle.
  - now exists i.
  - lia.
Qed.

Lemma run_call_outcome clk c db n :
  outcome clk db n c (run_call clk c (db, n)).
Proof.
  destruct c as [self s p delta reason|self f t_ p q reason];
    unfold run_call; cbn [fst snd].
  - rewrite update_stock_run. destruct delta as [d|repr];
      [|apply rolled_back].
    destruct (Z.eqb_spec d 0) as [|Hd]; [apply rolled_back|].
    destruct (find_store db s); [|apply rolled_back].
    destruct (find_product db p); [|apply rolled_back].
    destruct (Z.ltb_spec (on_hand db s p + d) 0) as [|Hq];
      [apply rolled_back|].
    cbn [snd open_session committed reads]. now apply updated.
  - rewrite transfer_stock_run.
    destruct (Z.leb_spec q 0) as [|Hq]; [apply rolled_back|].
    destruct (Z.eqb_spec f t_) as [|Hft]; [apply rolled_back|].
    destruct (find_store db f) as [from_store|] eqn:Ef; [|apply rolled_back].
    destruct (find_store db t_) as [to_store|] eqn:Et; [|apply rolled_back].
    destruct (find_product db p); [|apply rolled_back].
    destruct (find (InventoryItem.matches f p) (inventory_items db))
      as [source|] eqn:Es; [|apply rolled_back].
    destruct (Z.ltb_spec (InventoryItem.quantity source) q) as [|Hs];
      [apply rolled_back|].
    cbn [snd open_session committed reads].
    now apply (transferred clk db n self f t_ p q reason source).
Qed.

Lemma run_call_consistent clk c st :
  ledger_consistent (fst st) -> ledger_consistent (fst (run_call clk c st)).
Proof.
  destruct st as [db n]. cbn [fst]. intros H.
  destruct (run_call_outcome clk c db n); cbn [fst].
  - exact H.
  - now apply after_update_consistent.
  - now apply (after_transfer_consistent db self f t_ p q _ _ _ _ _ _ _ source).
Qed.

Lemma run_call_non_negative clk c st :
  non_negative (fst st) -> non_negative (fst (run_call clk c st)).
Proof.
  destruct st as [db n]. cbn [fst]. intros H.
  destruct (run_call_outcome clk c db n); cbn [fst].
  - exact H.
  - now apply after_update_non_negative.
  - now apply (after_transfer_non_negative db self f t_ p q _ _ _ _ _ _ _
                 source).
Qed.

Lemma run_calls_invariant (P : Database -> Prop) clk :
  (forall c st, P (fst st) -> P (fst (run_call clk c st))) ->
  forall cs st, P (fst st) -> P (fst (run_calls clk cs st)).
Proof.
  intros Hstep cs. induction cs as [|c cs IH]; intros st H; [exact H|].
  cbn [run_calls fold_left]. apply IH. now apply Hstep.
Qed.

Lemma find_unique_row l i :
  NoDup (map pair_of l) -> In i l ->
  find (InventoryItem.matches (InventoryItem.store_id i)
          (InventoryItem.product_id i)) l = Some i.
Proof.
  induction l as [|x l IH]; intros Hnd Hin; [contradiction|].
  cbn [map] in Hnd. inversion Hnd as [|? ? Hx Hl]; subst.
  cbn [find].
  destruct (InventoryItem.matches _ _ x) eqn:E.
  - destruct Hin as [->|Hin]; [reflexivity|].
    exfalso. apply Hx. apply matches_pair in E.
    fold (pair_of i) in E. rewrite E. now apply in_map.
  - destruct Hin as [->|Hin]; [|now apply IH].
    exfalso. assert (T : InventoryItem.matches (InventoryItem.store_id i)
                           (InventoryItem.product_id i) i = true)
      by now apply matches_pair.
    congruence.
Qed.

Lemma consistent_items_match db :
  ledger_consistent db -> items_match_ledger db.
Proof.
  intros [Hu Hl]. unfold items_match_ledger. apply Forall_forall.
  intros i Hi. rewrite <- Hl. unfold on_hand.
  now rewrite (find_unique_row _ i Hu Hi).
Qed.

Lemma row_after_update db self s p d reason t1 t2 :
  exists item,
    find (InventoryItem.matches s p)
         (inventory_items (after_update db self s p d reason t1 t2))
    = Some item
    /\ InventoryItem.quantity item = on_hand db s p + d
    /\ InventoryItem.last_updated item = Some t1.
Proof.
  unfold after_update. cbn [inventory_items].
  destruct (find_with_row db s p) as [i [Ei _]].
  rewrite !find_update_first_same, Ei
    by (intros x; apply keeps_pair_matches; intros y; reflexivity).
  eexists. split; [reflexivity|]. split; reflexivity.
Qed.

Lemma row_after_transfer db self f t_ p q from_name to_name reason
    t1 t2 t3 t4 :
  f <> t_ ->
  exists item,
    find (InventoryItem.matches t_ p)
         (inventory_items
            (after_transfer db self f t_ p q from_name to_name reason
               t1 t2 t3 t4))
    = Some item
    /\ InventoryItem.quantity item = on_hand db t_ p + q.
Proof.
  intros Hft. unfold after_transfer. cbn [inventory_items].
  destruct (find_with_row db t_ p) as [i [Ei Hi]].
  rewrite !find_update_first_same
    by (intros x; apply keeps_pair_matches; intros y; reflexivity).
  rewrite !find_update_other_pair
    by (try congruence; intros y; reflexivity).
  rewrite Ei. eexists. split; [reflexivity|].
  cbn [InventoryItem.set_last_updated InventoryItem.set_quantity
       InventoryItem.quantity]. lia.
Qed.

(** ** Sample data *)

Lemma shop_consistent : ledger_consistent shop.
Proof.
  split.
  - unfold unique_store_product, shop. cbn [inventory_items map].
    constructor; [intros []|constructor].
  - intros s p. unfold on_hand, ledger_sum, shop.
    cbn [inventory_items transactions find filter].
    unfold InventoryItem.matches, recorded_against.
    cbn [InventoryItem.store_id InventoryItem.product_id
         Transaction.store_id Transaction.product_id].
    destruct ((1 =? s) && (1 =? p)); reflexivity.
Qed.

Lemma shop_non_negative : non_negative shop.
Proof. repeat constructor. cbn. lia. Qed.

(** * The claims *)

(** C1, as the code has it.  Starting from a database in which every
    pair of a store and a product has on hand the signed sum of its
    transactions (a pair without a row counting as 0) and no pair has two
    rows, every sequence of [update_stock] and [transfer_stock] calls,
    failed ones included, leads to a database with the same property; in
    it every [InventoryItem] row holds the signed sum of the rows
    recorded against its pair, IN and received transfers added, OUT and
    sent transfers subtracted. *)
Theorem ledger_stays_consistent clk calls db n :
  ledger_consistent db ->
  ledger_consistent (fst (run_calls clk calls (db, n)))
  /\ items_match_ledger (fst (run_calls clk calls (db, n))).
Proof.
  intros H.
  assert (H' : ledger_consistent (fst (run_calls clk calls (db, n)))).
  { apply (run_calls_invariant ledger_consistent); [|exact H].
    intros c st. apply run_call_consistent. }
  split; [exact H'|]. now apply consistent_items_match.
Qed.

Lemma ledger_stays_consistent_witness :
  ledger_consistent shop
  /\ ledger_consistent (fst (run_calls ticking busy_day (shop, 0%nat)))
  /\ items_match_ledger (fst (run_calls ticking busy_day (shop, 0%nat))).
Proof.
  split; [exact shop_consistent|].
  apply (ledger_stays_consistent ticking busy_day shop 0), shop_consistent.
Defined.

(** C1 as stated fails: when the log already holds rows for a pair that
    has no [InventoryItem] row, the equality holds of every row there is,
    and the row [update_stock] creates starts from 0, not from the sum of
    those rows. *)
Lemma orphan_rows_break_item_sums :
  items_match_ledger orphaned
  /\ ~ items_match_ledger
         (fst (run_calls ticking
                 [UpdateStock clerk 1 1 (PyInt 3) "restock"]
                 (orphaned, 0%nat))).
Proof.
  split; [constructor|].
  intros H. vm_compute in H. inversion H as [|? ? E _]. discriminate E.
Qed.

(** C2.  From a database whose quantities are all non-negative, every
    sequence of [update_stock] and [transfer_stock] calls, successful or
    failed, leads to a database whose quantities are all non-negative. *)
Theorem quantities_stay_non_negative clk calls db n :
  non_negative db ->
  non_negative (fst (run_calls clk calls (db, n))).
Proof.
  intros H. apply (run_calls_invariant non_negative); [|exact H].
  intros c st. apply run_call_non_negative.
Qed.

Lemma quantities_stay_non_negative_witness :
  non_negative shop
  /\ non_negative (fst (run_calls ticking busy_day (shop, 0%nat))).
Proof.
  split; [exact shop_non_negative|].
  apply (quantities_stay_non_negative ticking busy_day shop 0),
    shop_non_negative.
Defined.

(** C3.  For an existing store and product and a non-zero integer delta
    with current + delta >= 0, [update_stock] returns current + delta as
    the new quantity, leaves the row of the pair (created at 0 if it was
    not there) at that quantity, and appends exactly one transaction: IN
    when delta > 0, OUT when delta < 0, its quantity |delta|. *)
Theorem update_stock_applies_delta self s p d reason db clk n st pr :
  find_store db s = Some st ->
  find_product db p = Some pr ->
  d <> 0 ->
  0 <= on_hand db s p + d ->
  exists r s' item row,
    update_stock self s p (PyInt d) reason (open_session db clk n)
    = (Ok r, s')
    /\ new_quantity r = on_hand db s p + d
    /\ find (InventoryItem.matches s p) (inventory_items (committed s'))
       = Some item
    /\ InventoryItem.quantity item = on_hand db s p + d
    /\ transactions (committed s') = transactions db ++ [row]
    /\ Transaction.type row = (if d >? 0 then "IN" else "OUT")%string
    /\ Transaction.quantity row = Z.abs d
    /\ Transaction.store_id row = s
    /\ Transaction.product_id row = p.
Proof.
  intros Hs Hp Hd Hq. rewrite update_stock_run, Hs, Hp.
  destruct (Z.eqb_spec d 0) as [|_]; [contradiction|].
  destruct (Z.ltb_spec (on_hand db s p + d) 0) as [|_]; [lia|].
  destruct (row_after_update db self s p d reason (clk n) (clk (S n)))
    as [item [Ei [Hi _]]].
  cbv zeta. eexists _, _, item, _. split; [reflexivity|].
  cbn [new_quantity committed open_session].
  split; [reflexivity|]. split; [exact Ei|]. split; [exact Hi|].
  unfold after_update. cbn [transactions].
  split; [reflexivity|]. repeat split.
Qed.

Lemma update_stock_applies_delta_witness :
  exists r s' item row,
    update_stock clerk 1 1 (PyInt (-5)) "sale" (open_session shop ticking 0)
    = (Ok r, s')
    /\ new_quantity r = 12 + -5
    /\ find (InventoryItem.matches 1 1) (inventory_items (committed s'))
       = Some item
    /\ InventoryItem.quantity item = 12 + -5
    /\ transactions (committed s') = transactions shop ++ [row]
    /\ Transaction.type row = "OUT"%string
    /\ Transaction.quantity row = 5
    /\ Transaction.store_id row = 1
    /\ Transaction.product_id row = 1.
Proof.
  apply (update_stock_applies_delta clerk 1 1 (-5) "sale" shop ticking 0
           (Store.Build 1 "Downtown" "Main Street")
           (Product.Build 1 "LAP-001" "Gaming Laptop Pro" "Electronics" 10)).
  - reflexivity.
  - reflexivity.
  - discriminate.
  - discriminate.
Defined.

(** C4.  A call of [update_stock] whose delta would take the quantity of
    the pair below zero fails, and the session is back where it started:
    the rows of [inventory_items] and the transaction log are as before
    the call.  The call that reaches the stock test (a non-zero delta, an
    existing store and product) raises the insufficient-stock error,
    whose message reports the current quantity. *)
Theorem update_stock_insufficient_stock self s p d reason db clk n :
  on_hand db s p + d < 0 ->
  exists msg s',
    update_stock self s p (PyInt d) reason (open_session db clk n)
    = (Raise (ValueError msg), s')
    /\ inventory_items (committed s') = inventory_items db
    /\ transactions (committed s') = transactions db
    /\ s' = open_session db clk n
    /\ (d <> 0 -> find_store db s <> None -> find_product db p <> None ->
        msg = ("Insufficient stock. Current: " ++ str (on_hand db s p)
               ++ ", Requested: " ++ str (Z.abs d))%string).
Proof.
  intros Hq. rewrite update_stock_run.
  destruct (Z.eqb_spec d 0) as [|_].
  { eexists _, _. split; [reflexivity|]. repeat split. contradiction. }
  destruct (find_store db s).
  2:{ eexists _, _. split; [reflexivity|]. repeat split. congruence. }
  destruct (find_product db p).
  2:{ eexists _, _. split; [reflexivity|]. repeat split. congruence. }
  destruct (Z.ltb_spec (on_hand db s p + d) 0) as [_|]; [|lia].
  eexists _, _. split; [reflexivity|]. repeat split.
Qed.

Lemma update_stock_insufficient_stock_witness :
  exists msg s',
    update_stock clerk 1 1 (PyInt (-50)) "too much"
      (open_session shop ticking 0)
    = (Raise (ValueError msg), s')
    /\ inventory_items (committed s') = inventory_items shop
    /\ transactions (committed s') = transactions shop
    /\ s' = open_session shop ticking 0
    /\ (-50 <> 0 -> find_store shop 1 <> None -> find_product shop 1 <> None ->
        msg = ("Insufficient stock. Current: " ++ str (on_hand shop 1 1)
               ++ ", Requested: " ++ str (Z.abs (-50)))%string).
Proof.
  apply (update_stock_insufficient_stock clerk 1 1 (-50) "too much" shop
           ticking 0).
  reflexivity.
Defined.

(** C5, as the code has it.  For two distinct existing stores, an
    existing product and a quantity Q with 0 < Q <= the source quantity,
    [transfer_stock] takes Q from the source row, adds Q to the
    destination row (created at 0 if it was not there), and appends
    exactly two TRANSFER rows of quantity Q: the first at the source
    store with the destination as related store, the second at the
    destination store with the source as related store.  Each row takes
    its timestamp from its own reading of the clock at its INSERT, the
    source row first. *)
Theorem transfer_stock_moves_stock self f t_ p q reason db clk n
    from_store to_store pr :
  f <> t_ ->
  find_store db f = Some from_store ->
  find_store db t_ = Some to_store ->
  find_product db p = Some pr ->
  0 < q ->
  q <= on_hand db f p ->
  exists r s' to_item o i,
    transfer_stock self f t_ p q reason (open_session db clk n) = (Ok r, s')
    /\ on_hand (committed s') f p = on_hand db f p - q
    /\ on_hand (committed s') t_ p = on_hand db t_ p + q
    /\ find (InventoryItem.matches t_ p) (inventory_items (committed s'))
       = Some to_item
    /\ transactions (committed s') = transactions db ++ [o; i]
    /\ (Transaction.type o = "TRANSFER"%string
        /\ Transaction.store_id o = f
        /\ Transaction.related_store_id o = Some t_
        /\ Transaction.product_id o = p
        /\ Transaction.quantity o = q
        /\ Transaction.timestamp o = clk (S (S n)))
    /\ (Transaction.type i = "TRANSFER"%string
        /\ Transaction.store_id i = t_
        /\ Transaction.related_store_id i = Some f
        /\ Transaction.product_id i = p
        /\ Transaction.quantity i = q
        /\ Transaction.timestamp i = clk (S (S (S n)))).
Proof.
  intros Hft Hf Ht Hp Hq Hle.
  destruct (source_row_of_stock db f p q Hq Hle) as [source [Es Hs]].
  rewrite transfer_stock_run, Hf, Ht, Hp, Es.
  destruct (Z.leb_spec q 0) as [|_]; [lia|].
  destruct (Z.eqb_spec f t_) as [|_]; [contradiction|].
  destruct (Z.ltb_spec (InventoryItem.quantity source) q) as [|_]; [lia|].
  cbv zeta.
  destruct (row_after_transfer db self f t_ p q (Store.name from_store)
              (Store.name to_store) reason (clk n) (clk (S n))
              (clk (S (S n))) (clk (S (S (S n)))) Hft)
    as [to_item [Ei _]].
  eexists _, _, to_item, _, _. split; [reflexivity|].
  cbn [committed open_session].
  pose proof (on_hand_after_transfer db self f t_ p q (Store.name from_store)
                (Store.name to_store) reason (clk n) (clk (S n))
                (clk (S (S n))) (clk (S (S (S n)))) source Hft Es) as Hoh.
  split.
  { rewrite Hoh. destruct (pair_eq_dec (f, p) (f, p)); congruence. }
  split.
  { rewrite Hoh. destruct (pair_eq_dec (f, p) (t_, p)); [congruence|].
    destruct (pair_eq_dec (t_, p) (t_, p)); congruence. }
  split; [exact Ei|].
  unfold after_transfer. cbn [transactions]. rewrite <- app_assoc.
  split; [reflexivity|]. repeat split.
Qed.

Lemma transfer_stock_moves_stock_witness :
  exists r s' to_item o i,
    transfer_stock clerk 1 2 1 5 "restock" (open_session shop ticking 0)
    = (Ok r, s')
    /\ on_hand (committed s') 1 1 = on_hand shop 1 1 - 5
    /\ on_hand (committed s') 2 1 = on_hand shop 2 1 + 5
    /\ find (InventoryItem.matches 2 1) (inventory_items (committed s'))
       = Some to_item
    /\ transactions (committed s') = transactions shop ++ [o; i]
    /\ (Transaction.type o = "TRANSFER"%string
        /\ Transaction.store_id o = 1
        /\ Transaction.related_store_id o = Some 2
        /\ Transaction.product_id o = 1
        /\ Transaction.quantity o = 5
        /\ Transaction.timestamp o = ticking 2)
    /\ (Transaction.type i = "TRANSFER"%string
        /\ Transaction.store_id i = 2
        /\ Transaction.related_store_id i = Some 1
        /\ Transaction.product_id i = 1
        /\ Transaction.quantity i = 5
        /\ Transaction.timestamp i = ticking 3).
Proof.
  apply (transfer_stock_moves_stock clerk 1 2 1 5 "restock" shop ticking 0
           (Store.Build 1 "Downtown" "Main Street")
           (Store.Build 2 "Mall" "Ring Road")
           (Product.Build 1 "LAP-001" "Gaming Laptop Pro" "Electronics" 10)).
  - discriminate.
  - reflexivity.
  - reflexivity.
  - reflexivity.
  - reflexivity.
  - discriminate.
Defined.

(** C5 as stated fails on the shared timestamp: with a clock that
    advances between two readings, the two rows of one transfer carry
    different timestamps. *)
Lemma transfer_rows_own_timestamps :
  exists r s' o i,
    transfer_stock clerk 1 2 1 5 "restock" (open_session shop ticking 0)
    = (Ok r, s')
    /\ transactions (committed s') = transactions shop ++ [o; i]
    /\ Transaction.timestamp o <> Transaction.timestamp i.
Proof.
  eexists _, _, _, _. split; [vm_compute; reflexivity|].
  split; [vm_compute; reflexivity|]. vm_compute. discriminate.
Qed.

(** C6.  [transfer_stock] called with a non-positive quantity, or with
    the same store as source and destination, raises the argument error
    of that test and leaves the session where it started: no row of
    [inventory_items] and no transaction is written. *)
Theorem transfer_stock_invalid_argument self f t_ p q reason db clk n :
  q <= 0 \/ f = t_ ->
  exists msg s',
    transfer_stock self f t_ p q reason (open_session db clk n)
    = (Raise (ValueError msg), s')
    /\ (msg = "Transfer quantity must be positive"%string
        \/ msg = "Cannot transfer to the same store"%string)
    /\ inventory_items (committed s') = inventory_items db
    /\ transactions (committed s') = transactions db
    /\ s' = open_session db clk n.
Proof.
  intros H. rewrite transfer_stock_run.
  destruct (Z.leb_spec q 0) as [|Hq].
  - eexists _, _. split; [reflexivity|]. split; [now left|]. repeat split.
  - destruct H as [|<-]; [lia|]. rewrite Z.eqb_refl.
    eexists _, _. split; [reflexivity|]. split; [now right|]. repeat split.
Qed.

Lemma transfer_stock_invalid_argument_witness :
  exists msg s',
    transfer_stock clerk 2 2 1 1 "nowhere" (open_session shop ticking 0)
    = (Raise (ValueError msg), s')
    /\ (msg = "Transfer quantity must be positive"%string
        \/ msg = "Cannot transfer to the same store"%string)
    /\ inventory_items (committed s') = inventory_items shop
    /\ transactions (committed s') = transactions shop
    /\ s' = open_session shop ticking 0.
Proof.
  apply (transfer_stock_invalid_argument clerk 2 2 1 1 "nowhere" shop
           ticking 0).
  right. reflexivity.
Defined.

(** The row [update_stock] creates is in the session when the stock test
    raises: without the handler it would stay there, at quantity 0. *)
Lemma update_stock_body_keeps_new_row :
  let s' := snd (update_stock_body clerk 2 1 (PyInt (-5)) "sale"
                   (open_session shop ticking 0)) in
  on_hand (committed s') 2 1 = 0
  /\ find (InventoryItem.matches 2 1) (inventory_items (committed s')) = None
  /\ find (InventoryItem.matches 2 1) (inventory_items (view s'))
     = Some (InventoryItem.Build 2 2 1 0 None).
Proof. vm_compute. repeat split. Qed.

(** C10.  When the pair has no row and the call fails, no row of the
    pair exists after the call, neither committed nor in the session:
    the row created at 0 went with the rollback. *)
Theorem failed_update_stock_leaves_no_row self s p delta reason db clk n e :
  find (InventoryItem.matches s p) (inventory_items db) = None ->
  fst (update_stock self s p delta reason (open_session db clk n)) = Raise e ->
  let s' := snd (update_stock self s p delta reason (open_session db clk n)) in
  find (InventoryItem.matches s p) (inventory_items (committed s')) = None
  /\ find (InventoryItem.matches s p) (inventory_items (view s')) = None
  /\ inventory_items (committed s') = inventory_items db.
Proof.
  intros Hnone. rewrite update_stock_run.
  destruct delta as [d|repr]; [|intros _; repeat split; exact Hnone].
  destruct (d =? 0); [intros _; repeat split; exact Hnone|].
  destruct (find_store db s); [|intros _; repeat split; exact Hnone].
  destruct (find_product db p); [|intros _; repeat split; exact Hnone].
  destruct (_ <? 0); [intros _; repeat split; exact Hnone|].
  cbv zeta. cbn [fst]. discriminate.
Qed.

Lemma failed_update_stock_leaves_no_row_witness :
  let s' := snd (update_stock clerk 2 1 (PyInt (-5)) "sale"
                   (open_session shop ticking 0)) in
  find (InventoryItem.matches 2 1) (inventory_items (committed s')) = None
  /\ find (InventoryItem.matches 2 1) (inventory_items (view s')) = None
  /\ inventory_items (committed s') = inventory_items shop.
Proof.
  apply (failed_update_stock_leaves_no_row clerk 2 1 (PyInt (-5)) "sale" shop
           ticking 0
           (ValueError "Insufficient stock. Current: 0, Requested: 5")).
  - reflexivity.
  - vm_compute. reflexivity.
Defined.

(** ** The read side *)

Import Reports Api.

Lemma in_join_product db i p :
  In (i, p) (join_product db)
  <-> In i (inventory_items db) /\ In p (products db)
      /\ Product.id p = InventoryItem.product_id i.
Proof.
  unfold join_product. rewrite in_flat_map. split.
  - intros [x [Hx Hin]]. apply in_map_iff in Hin.
    destruct Hin as [y [E Hy]]. inversion E; subst x y.
    apply filter_In in Hy. destruct Hy as [Hy Hid].
    apply Z.eqb_eq in Hid. auto.
  - intros [Hi [Hp Hid]]. exists i. split; [exact Hi|].
    apply in_map_iff. exists p. split; [reflexivity|].
    apply filter_In. split; [exact Hp|]. now apply Z.eqb_eq.
Qed.

(** C7, as the code has it.  [get_low_stock_items] returns exactly the
    rows of [inventory_items], joined with their product, whose quantity
    is at most the reorder level of the product, restricted to the given
    store when the store id given is not 0 (a store id of 0 counts as no
    filter); each carries shortage = reorder level - quantity, which is
    never negative. *)
Theorem low_stock_items_exact store_id db :
  (forall e,
     In e (get_low_stock_items store_id db)
     <-> exists i p,
           In i (inventory_items db) /\ In p (products db)
           /\ Product.id p = InventoryItem.product_id i
           /\ InventoryItem.quantity i <= Product.reorder_level p
           /\ (truthy store_id = true
               -> store_id = Some (InventoryItem.store_id i))
           /\ e = LowStockItem i (Product.name p) (Product.sku p)
                    (Product.reorder_level p)
                    (Product.reorder_level p - InventoryItem.quantity i))
  /\ Forall (fun e => shortage e
                      = reorder_level e - InventoryItem.quantity (item e)
                      /\ 0 <= shortage e)
            (get_low_stock_items store_id db).
Proof.
  assert (H : forall e,
     In e (get_low_stock_items store_id db)
     <-> exists i p,
           In i (inventory_items db) /\ In p (products db)
           /\ Product.id p = InventoryItem.product_id i
           /\ InventoryItem.quantity i <= Product.reorder_level p
           /\ (truthy store_id = true
               -> store_id = Some (InventoryItem.store_id i))
           /\ e = LowStockItem i (Product.name p) (Product.sku p)
                    (Product.reorder_level p)
                    (Product.reorder_level p - InventoryItem.quantity i)).
  { intros e. unfold get_low_stock_items. rewrite in_map_iff. split.
    - intros [[i p] [E Hin]]. cbn [fst snd] in E. exists i, p.
      assert (Hlow : In (i, p)
                (filter (fun ip => InventoryItem.quantity (fst ip)
                                   <=? Product.reorder_level (snd ip))
                        (join_product db))
              /\ (truthy store_id = true
                  -> store_id = Some (InventoryItem.store_id i))).
      { destruct (truthy store_id) eqn:T.
        - apply filter_In in Hin. destruct Hin as [Hin Hs].
          split; [exact Hin|]. intros _. cbn [fst] in Hs.
          destruct store_id as [k|]; [|discriminate].
          cbn [eq_opt] in Hs. apply Z.eqb_eq in Hs. now subst k.
        - split; [exact Hin|discriminate]. }
      destruct Hlow as [Hin' Hs]. apply filter_In in Hin'.
      destruct Hin' as [Hj Hq]. cbn [fst snd] in Hq. apply Z.leb_le in Hq.
      apply in_join_product in Hj. destruct Hj as [Hi [Hp Hid]].
      repeat split; auto.
    - intros [i [p [Hi [Hp [Hid [Hq [Hs E]]]]]]]. exists (i, p).
      split; [now subst e|].
      assert (Hlow : In (i, p)
                (filter (fun ip => InventoryItem.quantity (fst ip)
                                   <=? Product.reorder_level (snd ip))
                        (join_product db))).
      { apply filter_In. split; [now apply in_join_product|].
        now apply Z.leb_le. }
      destruct (truthy store_id) eqn:T; [|exact Hlow].
      apply filter_In. split; [exact Hlow|]. cbn [fst].
      rewrite (Hs eq_refl). cbn [eq_opt]. apply Z.eqb_refl. }
  split; [exact H|]. apply Forall_forall. intros e He.
  apply H in He. destruct He as [i [p [_ [_ [_ [Hq [_ ->]]]]]]].
  cbn [shortage reorder_level item]. split; [reflexivity|lia].
Qed.

(** C7 as stated fails for the store id 0: it is given, and the rows of
    every store come back. *)
Lemma low_stock_store_zero_unfiltered :
  exists e,
    In e (get_low_stock_items (Some 0) closing)
    /\ InventoryItem.store_id (item e) <> 0.
Proof.
  eexists. split; [vm_compute; left; reflexivity|].
  vm_compute. discriminate.
Qed.

(** ** The polling endpoint *)

Lemma in_insert_desc t l x :
  In x (insert_desc t l) <-> x = t \/ In x l.
Proof.
  induction l as [|u l IH]; cbn [insert_desc].
  - cbn [In]. intuition.
  - destruct (_ >=? _); cbn [In]; [intuition|].
    rewrite IH. intuition.
Qed.

Lemma in_order_by l x :
  In x (order_by_timestamp_desc l) <-> In x l.
Proof.
  induction l as [|t l IH]; [reflexivity|].
  cbn [order_by_timestamp_desc fold_right].
  fold (order_by_timestamp_desc l). rewrite in_insert_desc, IH.
  cbn [In]. intuition.
Qed.

Lemma insert_desc_sorted t l :
  StronglySorted not_older l -> StronglySorted not_older (insert_desc t l).
Proof.
  induction l as [|u l IH]; intros H; cbn [insert_desc].
  - repeat constructor.
  - destruct (Z.geb_spec (Transaction.timestamp t) (Transaction.timestamp u))
      as [Hge|Hlt].
    + constructor; [exact H|]. inversion H as [|? ? Hl Hu]; subst.
      constructor; [unfold not_older; lia|].
      rewrite Forall_forall in Hu |- *. intros x Hx.
      specialize (Hu x Hx). unfold not_older in *. lia.
    + inversion H as [|? ? Hl Hu]; subst. constructor; [now apply IH|].
      apply Forall_forall. intros x Hx. apply in_insert_desc in Hx.
      destruct Hx as [->|Hx]; [unfold not_older; lia|].
      rewrite Forall_forall in Hu. now apply Hu.
Qed.

Lemma order_by_sorted l :
  StronglySorted not_older (order_by_timestamp_desc l).
Proof.
  induction l as [|t l IH]; [constructor|].
  cbn [order_by_timestamp_desc fold_right]. now apply insert_desc_sorted.
Qed.

Lemma in_firstn {A} n (l : list A) x : In x (firstn n l) -> In x l.
Proof.
  revert l. induction n as [|n IH]; intros l; [intros []|].
  destruct l as [|y l]; [intros []|].
  cbn [firstn In]. intros [->|H]; auto.
Qed.

Lemma firstn_sorted {A} (R : A -> A -> Prop) n l :
  StronglySorted R l -> StronglySorted R (firstn n l).
Proof.
  revert l. induction n as [|n IH]; intros l H; [constructor|].
  destruct l as [|x l]; [constructor|].
  inversion H as [|? ? Hl Hx]; subst. cbn [firstn].
  constructor; [now apply IH|].
  rewrite Forall_forall in Hx |- *. intros y Hy. apply Hx.
  now apply (in_firstn n).
Qed.

(** C8.  For a logged-in caller and a [since] parameter which parses to
    the timestamp T, the endpoint answers with at most 100 changes, each
    for a transaction of the log whose timestamp is strictly greater
    than T, ordered newest first. *)
Theorem get_changes_strictly_after fromisoformat since_param T wall db :
  since_param <> EmptyString ->
  fromisoformat since_param = Some T ->
  exists changes,
    get_changes fromisoformat true (Some since_param) wall db
    = Json changes wall
    /\ (List.length changes <= 100)%nat
    /\ Forall (fun c => In (transaction c) (transactions db)
                        /\ T < Transaction.timestamp (transaction c))
              changes
    /\ StronglySorted not_older (map transaction changes).
Proof.
  intros Hne Hparse. unfold get_changes. cbn [negb].
  destruct since_param as [|a since']; [contradiction|].
  rewrite Hparse. eexists. split; [reflexivity|].
  rewrite length_map, map_map. cbn [transaction]. rewrite map_id.
  split; [apply firstn_le_length|]. split.
  - apply Forall_forall. intros c Hc. apply in_map_iff in Hc.
    destruct Hc as [t [<- Ht]]. cbn [transaction].
    apply in_firstn, in_order_by, filter_In in Ht.
    destruct Ht as [Hin Hgt]. split; [exact Hin|]. lia.
  - apply firstn_sorted, order_by_sorted.
Qed.

Lemma get_changes_strictly_after_witness :
  exists changes,
    get_changes parse_two true (Some "1970-01-01T00:00:00.001001"%string)
      2000 closing
    = Json changes 2000
    /\ (List.length changes <= 100)%nat
    /\ Forall (fun c => In (transaction c) (transactions closing)
                        /\ 1001 < Transaction.timestamp (transaction c))
              changes
    /\ StronglySorted not_older (map transaction changes).
Proof.
  apply (get_changes_strictly_after parse_two
           "1970-01-01T00:00:00.001001" 1001 2000 closing).
  - discriminate.
  - reflexivity.
Defined.

(** C9 fails on the code.  With no store filter, [total_in] is 0 whatever
    came in, because no row has a store equal to [None]; with the filter
    on store 1, [total_in] adds the transfer store 1 sent to the 12 units
    it received. *)
Theorem stock_report_total_in_misses :
  report_totals (generate_stock_report None None None shop)
  = Totals 0 0 0 0 0
  /\ report_transactions (generate_stock_report None None None shop)
     = transactions shop
  /\ report_totals (generate_stock_report None None (Some 1) closing)
     = Totals 17 5 5 5 12.
Proof. vm_compute. repeat split. Qed.

(** * Further properties of the ledger *)

Lemma outcome_log clk db n c st :
  outcome clk db n c st ->
  exists added,
    transactions (fst st) = transactions db ++ added
    /\ stores (fst st) = stores db
    /\ products (fst st) = products db
    /\ Forall (fun t => 0 < Transaction.quantity t) added
    /\ (List.length added <= 2)%nat.
Proof.
  intros [c'|self s p d reason Hd Hq
          |self f t_ p q reason source from_store to_store Hft Hq Es Hs Ef Et].
  - exists []. rewrite app_nil_r. repeat split; auto.
  - eexists [_]. cbn [fst after_update transactions stores products].
    repeat split; auto;
      repeat constructor; cbn [Transaction.quantity]; lia.
  - eexists [_; _]. cbn [fst after_transfer transactions stores products].
    rewrite <- app_assoc.
    repeat split; auto;
      repeat constructor; cbn [Transaction.quantity out_row in_row]; lia.
Qed.

(** The log is append-only: whatever the calls, the rows that were in
    the log are still its first rows, unchanged; each call adds at most
    two rows, each with a positive quantity; and no call writes the
    stores or the products. *)
Theorem log_is_append_only clk calls db n :
  exists added,
    transactions (fst (run_calls clk calls (db, n)))
    = transactions db ++ added
    /\ stores (fst (run_calls clk calls (db, n))) = stores db
    /\ products (fst (run_calls clk calls (db, n))) = products db
    /\ Forall (fun t => 0 < Transaction.quantity t) added
    /\ (List.length added <= 2 * List.length calls)%nat.
Proof.
  revert db n. induction calls as [|c calls IH]; intros db n.
  - exists []. cbn [run_calls fold_left fst]. rewrite app_nil_r.
    repeat split; auto.
  - cbn [run_calls fold_left].
    destruct (outcome_log clk db n c _ (run_call_outcome clk c db n))
      as [a1 [E1 [S1 [P1 [Q1 L1]]]]].
    destruct (run_call clk c (db, n)) as [db1 n1]. cbn [fst] in *.
    destruct (IH db1 n1) as [a2 [E2 [S2 [P2 [Q2 L2]]]]].
    fold (run_calls clk calls (db1, n1)).
    exists (a1 ++ a2). rewrite E2, E1, S2, S1, P2, P1, app_assoc.
    repeat split; auto.
    + apply Forall_app. now split.
    + rewrite length_app. cbn [List.length]. lia.
Qed.

(** A call changes the stock of the pairs it addresses and of no other
    pair. *)
Theorem other_pairs_keep_their_stock clk c db n s p :
  ~ addresses c s p ->
  on_hand (fst (run_call clk c (db, n))) s p = on_hand db s p.
Proof.
  intros Hno.
  destruct (run_call_outcome clk c db n)
    as [c'|self s0 p0 d reason Hd Hq
       |self f t_ p0 q reason source from_store to_store Hft Hq Es Hs Ef Et];
    cbn [fst].
  - reflexivity.
  - rewrite on_hand_after_update.
    destruct (pair_eq_dec (s0, p0) (s, p)); [now elim Hno|reflexivity].
  - rewrite (on_hand_after_transfer db self f t_ p0 q _ _ _ _ _ _ _ source)
      by assumption.
    cbn [addresses] in Hno.
    destruct (pair_eq_dec (f, p0) (s, p)); [elim Hno; now left|].
    destruct (pair_eq_dec (t_, p0) (s, p)); [elim Hno; now right|].
    reflexivity.
Qed.

Lemma other_pairs_keep_their_stock_witness :
  ~ addresses (TransferStock clerk 1 2 1 5 "restock") 3 1
  /\ on_hand (fst (run_call ticking (TransferStock clerk 1 2 1 5 "restock")
                     (shop, 0%nat))) 3 1
     = on_hand shop 3 1.
Proof.
  assert (H : ~ addresses (TransferStock clerk 1 2 1 5 "restock") 3 1).
  { cbn [addresses]. intros [E|E]; discriminate E. }
  split; [exact H|].
  exact (other_pairs_keep_their_stock ticking
           (TransferStock clerk 1 2 1 5 "restock") shop 0 3 1 H).
Defined.

(** ** Units over all stores *)

Lemma units_update_first test f l :
  units (update_first test f l) =
  units l
  + match find test l with
    | Some i => InventoryItem.quantity (f i) - InventoryItem.quantity i
    | None => 0
    end.
Proof.
  unfold units, sum. induction l as [|x l IH]; [reflexivity|].
  cbn [update_first find]. destruct (test x).
  - cbn [map fold_right]. lia.
  - cbn [map fold_right]. fold (sum (map InventoryItem.quantity l)) in *.
    unfold sum in IH |- *. rewrite IH. lia.
Qed.

Lemma units_touch_timestamp test ts l :
  units (update_first test (InventoryItem.set_last_updated ts) l) = units l.
Proof.
  rewrite units_update_first. destruct (find test l); cbn; lia.
Qed.

Lemma units_with_row db s p : units (with_row db s p) = units (inventory_items db).
Proof.
  unfold with_row. destruct (find _ (inventory_items db)); [reflexivity|].
  unfold units. rewrite map_app, sum_app. cbn. lia.
Qed.

Lemma units_after_update db self s p d reason t1 t2 :
  units (inventory_items (after_update db self s p d reason t1 t2))
  = units (inventory_items db) + d.
Proof.
  unfold after_update. cbn [inventory_items].
  rewrite units_touch_timestamp, units_update_first, units_with_row.
  destruct (find_with_row db s p) as [i [-> Hi]].
  cbn [InventoryItem.set_quantity InventoryItem.quantity]. lia.
Qed.

Lemma units_after_transfer db self f t_ p q from_name to_name reason
    t1 t2 t3 t4 source :
  f <> t_ ->
  find (InventoryItem.matches f p) (inventory_items db) = Some source ->
  units (inventory_items
           (after_transfer db self f t_ p q from_name to_name reason
              t1 t2 t3 t4))
  = units (inventory_items db).
Proof.
  intros Hft Es. unfold after_transfer. cbn [inventory_items].
  rewrite units_touch_timestamp, units_update_first.
  rewrite !find_update_other_pair
    by (try congruence; intros y; reflexivity).
  rewrite units_touch_timestamp, units_update_first, units_with_row.
  rewrite (find_with_row_kept db t_ p f p source Es).
  destruct (find_with_row db t_ p) as [j [-> _]].
  cbn [InventoryItem.set_quantity InventoryItem.quantity]. lia.
Qed.

Import Dashboard.

Lemma outcome_transfer_units clk db n self f t_ p q reason st :
  outcome clk db n (TransferStock self f t_ p q reason) st ->
  units (inventory_items (fst st)) = units (inventory_items db).
Proof.
  intros H. remember (TransferStock self f t_ p q reason) as c eqn:Ec.
  destruct H as [c'|? ? ? ? ? ? ?
                |self' f' t' p' q' reason' source ? ? Hft Hq Es ? ? ?].
  - reflexivity.
  - discriminate Ec.
  - cbn [fst]. now apply (units_after_transfer _ _ _ _ _ _ _ _ _ _ _ _ _ source).
Qed.

(** A transfer, carried out or refused, leaves the total of units the
    dashboard shows as it was. *)
Theorem transfer_stock_conserves_units clk self f t_ p q reason db n :
  total_units
    (get_dashboard_kpis
       (fst (run_call clk (TransferStock self f t_ p q reason) (db, n))))
  = total_units (get_dashboard_kpis db).
Proof.
  cbn [get_dashboard_kpis total_units].
  apply (outcome_transfer_units clk db n self f t_ p q reason).
  apply run_call_outcome.
Qed.

(** [update_stock] moves the total of units by the delta when it
    succeeds and not at all when it fails. *)
Theorem update_stock_shifts_units self s p d reason db clk n :
  let out := update_stock self s p (PyInt d) reason (open_session db clk n) in
  total_units (get_dashboard_kpis (committed (snd out)))
  = total_units (get_dashboard_kpis db)
    + match fst out with Ok _ => d | Raise _ => 0 end.
Proof.
  cbv zeta. rewrite update_stock_run.
  cbn [get_dashboard_kpis total_units].
  destruct (d =? 0); [cbn; lia|].
  destruct (find_store db s); [|cbn; lia].
  destruct (find_product db p); [|cbn; lia].
  destruct (_ <? 0); [cbn; lia|].
  cbv zeta. cbn [fst snd committed open_session].
  apply units_after_update.
Qed.

(** ** Primary keys *)

Lemma next_key_above l x : In x l -> x < next_key l.
Proof.
  unfold next_key. induction l as [|y l IH]; [intros []|].
  cbn [fold_right In]. intros [->|H]; [lia|]. specialize (IH H). lia.
Qed.

Lemma NoDup_next_key l : NoDup l -> NoDup (l ++ [next_key l]).
Proof.
  intros H. apply NoDup_rev in H. rewrite <- (rev_involutive (_ ++ _)).
  apply NoDup_rev. rewrite rev_app_distr. cbn [rev app].
  constructor; [|exact H]. rewrite <- in_rev. intros Hin.
  apply next_key_above in Hin. lia.
Qed.

Lemma outcome_keys_unique clk db n c st :
  outcome clk db n c st -> keys_unique db -> keys_unique (fst st).
Proof.
  intros [c'|self s p d reason Hd Hq
          |self f t_ p q reason source from_store to_store Hft Hq Es Hs Ef Et]
         [Hi Ht]; cbn [fst]; [now split| |].
  - split; cbn [after_update inventory_items transactions].
    + rewrite !map_update_first by (intros x; reflexivity).
      unfold with_row. destruct (find _ (inventory_items db)); [exact Hi|].
      rewrite map_app. now apply NoDup_next_key.
    + rewrite map_app. now apply NoDup_next_key.
  - split; cbn [after_transfer inventory_items transactions].
    + rewrite !map_update_first by (intros x; reflexivity).
      unfold with_row.
      destruct (find (InventoryItem.matches t_ p) (inventory_items db));
        [exact Hi|].
      rewrite map_app. now apply NoDup_next_key.
    + rewrite !map_app. cbn [map in_row out_row Transaction.id].
      rewrite !map_app. cbn [map out_row Transaction.id].
      apply NoDup_next_key. now apply NoDup_next_key.
Qed.

(** Primary keys stay unique: from tables whose keys are unique, every
    sequence of calls leads to tables whose keys are unique; a new row
    never takes the key of a row that is there. *)
Theorem primary_keys_stay_unique clk calls db n :
  keys_unique db -> keys_unique (fst (run_calls clk calls (db, n))).
Proof.
  intros H. apply (run_calls_invariant keys_unique); [|exact H].
  intros c [db' n']. cbn [fst].
  apply (outcome_keys_unique clk db' n' c), run_call_outcome.
Qed.

Lemma primary_keys_stay_unique_witness :
  keys_unique shop
  /\ keys_unique (fst (run_calls ticking busy_day (shop, 0%nat))).
Proof.
  assert (H : keys_unique shop).
  { split; cbn; (constructor; [intros []|constructor]). }
  split; [exact H|].
  exact (primary_keys_stay_unique ticking busy_day shop 0 H).
Defined.

(** ** Timestamps *)

Lemma sorted_snoc {A} (R : A -> A -> Prop) l x :
  StronglySorted R l -> Forall (fun y => R y x) l ->
  StronglySorted R (l ++ [x]).
Proof.
  induction l as [|y l IH]; intros Hs Hx; cbn [app].
  - repeat constructor.
  - inversion Hs as [|? ? Hl Hy]; subst. inversion Hx as [|? ? Ryx Hlx]; subst.
    constructor; [now apply IH|].
    apply Forall_app. split; [exact Hy|]. now repeat constructor.
Qed.

Lemma chronological_snoc clk l x n m :
  monotone clk -> (n <= m)%nat ->
  Transaction.timestamp x = clk m ->
  StronglySorted not_newer l ->
  Forall (fun t => Transaction.timestamp t <= clk n) l ->
  StronglySorted not_newer (l ++ [x])
  /\ Forall (fun t => Transaction.timestamp t <= clk m) (l ++ [x]).
Proof.
  intros Hm Hnm Hx Hs Hb.
  assert (Hb' : Forall (fun t => Transaction.timestamp t <= clk m) l).
  { eapply Forall_impl; [|exact Hb]. cbn beta. intros t Ht.
    specialize (Hm n m Hnm). lia. }
  split.
  - apply sorted_snoc; [exact Hs|].
    eapply Forall_impl; [|exact Hb']. unfold not_newer. cbn beta.
    intros t Ht. lia.
  - apply Forall_app. split; [exact Hb'|]. repeat constructor. lia.
Qed.

Lemma outcome_chronological clk db n c st :
  monotone clk ->
  outcome clk db n c st -> chronological clk (db, n) -> chronological clk st.
Proof.
  intros Hm [c'|self s p d reason Hd Hq
             |self f t_ p q reason source from_store to_store Hft Hq Es Hs Ef Et]
         [Hs' Hb]; cbn [fst snd] in *; [now split| |].
  - unfold chronological. cbn [fst snd after_update transactions].
    destruct (chronological_snoc clk (transactions db)
                (Transaction.Build
                   (next_key (map Transaction.id (transactions db))) p s
                   (if d >? 0 then "IN" else "OUT") (Z.abs d) (clk (S n))
                   reason None (user_id self))
                n (S n) Hm (Nat.le_succ_diag_r n) eq_refl Hs' Hb)
      as [H1 H2].
    split; [exact H1|].
    eapply Forall_impl; [|exact H2]. cbn beta. intros t Ht.
    specialize (Hm (S n) (S (S n)) (Nat.le_succ_diag_r _)). lia.
  - unfold chronological. cbn [fst snd after_transfer transactions].
    set (o := out_row _ _ _ _ _ _ _ _ _).
    destruct (chronological_snoc clk (transactions db) o n (S (S n)) Hm
                (Nat.le_trans _ _ _ (Nat.le_succ_diag_r n)
                   (Nat.le_succ_diag_r (S n)))
                eq_refl Hs' Hb) as [H1 H2].
    set (i := in_row _ _ _ _ _ _ _ _ _).
    destruct (chronological_snoc clk (transactions db ++ [o]) i (S (S n))
                (S (S (S n))) Hm (Nat.le_succ_diag_r _) eq_refl H1 H2)
      as [H3 H4].
    split; [exact H3|].
    eapply Forall_impl; [|exact H4]. cbn beta. intros t Ht.
    specialize (Hm (S (S (S n))) (S (S (S (S n)))) (Nat.le_succ_diag_r _)).
    lia.
Qed.

(** With a clock that never goes back, the log stays in the order of
    its timestamps: from a log in that order whose timestamps are not
    later than the clock, every sequence of calls leads to such a log. *)
Theorem log_stays_chronological clk calls st :
  monotone clk ->
  chronological clk st -> chronological clk (run_calls clk calls st).
Proof.
  intros Hm. revert st. induction calls as [|c calls IH]; intros st H;
    [exact H|].
  cbn [run_calls fold_left]. apply IH. destruct st as [db n].
  apply (outcome_chronological clk db n c); auto. apply run_call_outcome.
Qed.

Lemma log_stays_chronological_witness :
  monotone ticking /\ chronological ticking (shop, 0%nat)
  /\ chronological ticking (run_calls ticking busy_day (shop, 0%nat)).
Proof.
  assert (Hm : monotone ticking).
  { intros i j Hij. unfold ticking. lia. }
  assert (Hc : chronological ticking (shop, 0%nat)).
  { split; cbn.
    - repeat constructor.
    - repeat constructor. cbn. discriminate. }
  split; [exact Hm|]. split; [exact Hc|].
  exact (log_stays_chronological ticking busy_day (shop, 0%nat) Hm Hc).
Defined.

(** * Further properties of the read side *)

Lemma length_insert_desc t l :
  List.length (insert_desc t l) = S (List.length l).
Proof.
  induction l as [|u l IH]; [reflexivity|].
  cbn [insert_desc]. destruct (_ >=? _); cbn [List.length]; congruence.
Qed.

Lemma length_order_by l :
  List.length (order_by_timestamp_desc l) = List.length l.
Proof.
  induction l as [|t l IH]; [reflexivity|].
  cbn [order_by_timestamp_desc fold_right]. fold (order_by_timestamp_desc l).
  rewrite length_insert_desc. cbn [List.length]. congruence.
Qed.

(** In a sorted list, what a cut keeps comes before what it drops. *)
Lemma sorted_cut {A} (R : A -> A -> Prop) k l a b :
  StronglySorted R l -> In a (firstn k l) -> In b (skipn k l) -> R a b.
Proof.
  revert l. induction k as [|k IH]; intros l Hs Ha Hb; [destruct Ha|].
  destruct l as [|x l]; [destruct Ha|].
  inversion Hs as [|? ? Hl Hx]; subst. cbn [firstn skipn In] in *.
  destruct Ha as [->|Ha].
  - rewrite Forall_forall in Hx. apply Hx.
    rewrite <- (firstn_skipn k l). apply in_or_app. now right.
  - now apply (IH l).
Qed.

Lemma in_cut {A} k (l : list A) x :
  In x l -> In x (firstn k l) \/ In x (skipn k l).
Proof.
  intros H. rewrite <- (firstn_skipn k l) in H. now apply in_app_or.
Qed.

(** [get_recent_transactions] with a limit that is not negative returns
    at most [limit] rows of the log, of the given store when the store
    id is true, newest first; and no row it leaves out is newer than a
    row it returns. *)
Theorem recent_transactions_are_the_newest limit_ store_id db :
  0 <= limit_ ->
  let rows := get_recent_transactions limit_ store_id db in
  (Z.of_nat (List.length rows) <= limit_)
  /\ StronglySorted not_older rows
  /\ Forall (fun t => In t (transactions db)
                      /\ (truthy store_id = true
                          -> store_id = Some (Transaction.store_id t)))
            rows
  /\ (forall t r,
        In t (transactions db) ->
        (truthy store_id = true -> store_id = Some (Transaction.store_id t)) ->
        ~ In t rows -> In r rows ->
        Transaction.timestamp t <= Transaction.timestamp r).
Proof.
  intros Hl. cbv zeta. unfold get_recent_transactions, limit.
  destruct (Z.ltb_spec limit_ 0) as [|_]; [lia|].
  set (scope := if truthy store_id then _ else _).
  assert (Hscope : forall t,
            In t scope <->
            In t (transactions db)
            /\ (truthy store_id = true
                -> store_id = Some (Transaction.store_id t))).
  { intros t. unfold scope. destruct (truthy store_id) eqn:T.
    - rewrite filter_In. destruct store_id as [k|]; [|discriminate].
      cbn [eq_opt]. rewrite Z.eqb_eq. split.
      + intros [H ->]. auto.
      + intros [H E]. specialize (E eq_refl). inversion E. auto.
    - split; [intros H; split; [exact H|discriminate]|now intros [H _]]. }
  split.
  { pose proof (firstn_le_length (Z.to_nat limit_)
                  (order_by_timestamp_desc scope)). lia. }
  split; [apply firstn_sorted, order_by_sorted|].
  split.
  { apply Forall_forall. intros t Ht.
    apply in_firstn in Ht. apply (proj1 (in_order_by _ _)) in Ht.
    exact (proj1 (Hscope t) Ht). }
  intros t r Ht Hs Hout Hr.
  assert (Hin : In t (order_by_timestamp_desc scope)).
  { apply (proj2 (in_order_by _ _)). apply (proj2 (Hscope t)). now split. }
  destruct (in_cut (Z.to_nat limit_) _ _ Hin) as [H|H]; [contradiction|].
  exact (sorted_cut not_older _ _ r t (order_by_sorted scope) Hr H).
Qed.

Lemma recent_transactions_are_the_newest_witness :
  let rows := get_recent_transactions 2 (Some 1) closing in
  (Z.of_nat (List.length rows) <= 2)
  /\ StronglySorted not_older rows
  /\ Forall (fun t => In t (transactions closing)
                      /\ (truthy (Some 1) = true
                          -> Some 1 = Some (Transaction.store_id t)))
            rows
  /\ (forall t r,
        In t (transactions closing) ->
        (truthy (Some 1) = true -> Some 1 = Some (Transaction.store_id t)) ->
        ~ In t rows -> In r rows ->
        Transaction.timestamp t <= Transaction.timestamp r).
Proof.
  apply (recent_transactions_are_the_newest 2 (Some 1) closing).
  discriminate.
Defined.

(** The dashboard agrees with the reports it summarises: its low-stock
    count is the number of rows of the unfiltered low-stock list, it
    shows at most 10 recent transactions, and while no quantity is
    negative its total of units is not negative. *)
Theorem dashboard_agrees_with_reports db :
  low_stock_count (get_dashboard_kpis db)
  = Z.of_nat (List.length (get_low_stock_items None db))
  /\ (List.length (recent_transactions (get_dashboard_kpis db)) <= 10)%nat
  /\ (non_negative db -> 0 <= total_units (get_dashboard_kpis db)).
Proof.
  split; [|split].
  - unfold get_low_stock_items. cbn [truthy get_dashboard_kpis low_stock_count].
    now rewrite length_map.
  - cbn [get_dashboard_kpis recent_transactions].
    unfold get_recent_transactions, limit. cbn [truthy Z.ltb Z.compare].
    apply firstn_le_length.
  - cbn [get_dashboard_kpis total_units]. unfold non_negative.
    induction (inventory_items db) as [|i l IH]; intros H; [cbn; lia|].
    inversion H as [|? ? Hi Hl]; subst. cbn [map sum fold_right].
    specialize (IH Hl). unfold sum in IH. lia.
Qed.

(** The polling endpoint misses nothing while fewer than 100 rows are
    newer than [since]: every transaction of the log with a later
    timestamp is in the answer, with the stock on hand of its pair; when
    100 rows are returned, a row left out is not newer than any of
    them. *)
Theorem get_changes_misses_only_older fromisoformat since_param T wall db :
  since_param <> EmptyString ->
  fromisoformat since_param = Some T ->
  exists changes,
    get_changes fromisoformat true (Some since_param) wall db
    = Json changes wall
    /\ Forall (fun c => current_quantity c
                        = on_hand db (Transaction.store_id (transaction c))
                            (Transaction.product_id (transaction c)))
              changes
    /\ (forall t,
          In t (transactions db) -> T < Transaction.timestamp t ->
          In t (map transaction changes)
          \/ (List.length changes = 100%nat
              /\ Forall (fun c => Transaction.timestamp t
                                  <= Transaction.timestamp (transaction c))
                        changes)).
Proof.
  intros Hne Hparse. unfold get_changes. cbn [negb].
  destruct since_param as [|a since']; [contradiction|].
  rewrite Hparse. eexists. split; [reflexivity|].
  set (newer := filter _ (transactions db)).
  split.
  { apply Forall_forall. intros c Hc. apply in_map_iff in Hc.
    destruct Hc as [t [<- _]]. reflexivity. }
  intros t Ht HT. rewrite map_map. cbn [transaction]. rewrite map_id.
  assert (Hin : In t (order_by_timestamp_desc newer)).
  { apply (proj2 (in_order_by _ _)). unfold newer.
    apply filter_In. split; [exact Ht|].
    now apply Z.gtb_lt. }
  destruct (in_cut 100 _ _ Hin) as [H|H]; [now left|]. right.
  rewrite length_map. split.
  - destruct (Nat.le_gt_cases (List.length (order_by_timestamp_desc newer)) 100)
      as [Hle|Hgt].
    + rewrite skipn_all2 in H by exact Hle. destruct H.
    + apply firstn_length_le. lia.
  - apply Forall_forall. intros c Hc. apply in_map_iff in Hc.
    destruct Hc as [r [<- Hr]]. cbn [transaction].
    exact (sorted_cut not_older _ _ r t (order_by_sorted newer) Hr H).
Qed.

Lemma get_changes_misses_only_older_witness :
  exists changes,
    get_changes parse_two true (Some "1970-01-01T00:00:00"%string)
      2000 closing
    = Json changes 2000
    /\ Forall (fun c => current_quantity c
                        = on_hand closing
                            (Transaction.store_id (transaction c))
                            (Transaction.product_id (transaction c)))
              changes
    /\ (forall t,
          In t (transactions closing) -> 0 < Transaction.timestamp t ->
          In t (map transaction changes)
          \/ (List.length changes = 100%nat
              /\ Forall (fun c => Transaction.timestamp t
                                  <= Transaction.timestamp (transaction c))
                        changes)).
Proof.
  apply (get_changes_misses_only_older parse_two "1970-01-01T00:00:00" 0
           2000 closing).
  - discriminate.
  - reflexivity.
Defined.

(** A committed update shows in the next poll: after a successful
    [update_stock], polling with a [since] earlier than the timestamp of
    the new transaction, while fewer than 100 rows of the log were newer
    than [since], returns a change for that transaction, and its current
    quantity is the new quantity the call returned. *)
Theorem committed_update_shows_in_next_poll
    fromisoformat since_param T wall self s p d reason db clk n st pr :
  find_store db s = Some st ->
  find_product db p = Some pr ->
  d <> 0 ->
  0 <= on_hand db s p + d ->
  since_param <> EmptyString ->
  fromisoformat since_param = Some T ->
  T < clk (S n) ->
  (List.length (filter (fun t => Transaction.timestamp t >? T)
                       (transactions db)) < 100)%nat ->
  exists r s' changes c,
    update_stock self s p (PyInt d) reason (open_session db clk n)
    = (Ok r, s')
    /\ get_changes fromisoformat true (Some since_param) wall (committed s')
       = Json changes wall
    /\ In c changes
    /\ Transaction.id (transaction c) = transaction_id r
    /\ Transaction.timestamp (transaction c) = timestamp r
    /\ Transaction.store_id (transaction c) = s
    /\ Transaction.product_id (transaction c) = p
    /\ current_quantity c = new_quantity r.
Proof.
  intros Hs Hp Hd Hq Hne Hparse HT Hfew.
  rewrite update_stock_run, Hs, Hp.
  destruct (Z.eqb_spec d 0) as [|_]; [contradiction|].
  destruct (Z.ltb_spec (on_hand db s p + d) 0) as [|_]; [lia|].
  cbv zeta. set (db' := after_update db self s p d reason (clk n) (clk (S n))).
  set (row := Transaction.Build
                (next_key (map Transaction.id (transactions db))) p s
                (if d >? 0 then "IN" else "OUT") (Z.abs d) (clk (S n))
                reason None (user_id self)).
  assert (Hlog : transactions db' = transactions db ++ [row]) by reflexivity.
  unfold get_changes. cbn [negb].
  destruct since_param as [|a since']; [contradiction|].
  rewrite Hparse. cbn [committed open_session].
  set (newer := filter (fun t => Transaction.timestamp t >? T)
                       (transactions db')).
  assert (Hall : firstn 100 (order_by_timestamp_desc newer)
                 = order_by_timestamp_desc newer).
  { apply firstn_all2. rewrite length_order_by. unfold newer.
    rewrite Hlog, filter_app, length_app. cbn [filter].
    destruct (_ >? T); cbn [List.length]; lia. }
  eexists _, _, _, (Change row (on_hand db' s p)).
  split; [reflexivity|]. split; [reflexivity|].
  split.
  { cbn [committed open_session]. fold newer. rewrite Hall.
    apply in_map_iff. exists row. split.
    - cbn [Transaction.store_id Transaction.product_id row]. reflexivity.
    - apply (proj2 (in_order_by _ _)). unfold newer. apply filter_In. split.
      + rewrite Hlog. apply in_or_app. right. now left.
      + cbn [Transaction.timestamp row]. now apply Z.gtb_lt. }
  cbn [transaction current_quantity new_quantity transaction_id timestamp
       Transaction.id Transaction.timestamp Transaction.store_id
       Transaction.product_id row].
  repeat split.
  unfold db'. rewrite on_hand_after_update.
  destruct (pair_eq_dec (s, p) (s, p)); congruence.
Qed.

Lemma committed_update_shows_in_next_poll_witness :
  exists r s' changes c,
    update_stock clerk 1 1 (PyInt (-5)) "sale" (open_session shop ticking 0)
    = (Ok r, s')
    /\ get_changes parse_two true (Some "1970-01-01T00:00:00"%string) 2000
         (committed s')
       = Json changes 2000
    /\ In c changes
    /\ Transaction.id (transaction c) = transaction_id r
    /\ Transaction.timestamp (transaction c) = timestamp r
    /\ Transaction.store_id (transaction c) = 1
    /\ Transaction.product_id (transaction c) = 1
    /\ current_quantity c = new_quantity r.
Proof.
  apply (committed_update_shows_in_next_poll parse_two
           "1970-01-01T00:00:00" 0 2000 clerk 1 1 (-5) "sale" shop ticking 0
           (Store.Build 1 "Downtown" "Main Street")
           (Product.Build 1 "LAP-001" "Gaming Laptop Pro" "Electronics" 10)).
  - reflexivity.
  - reflexivity.
  - discriminate.
  - discriminate.
  - discriminate.
  - reflexivity.
  - reflexivity.
  - cbn. repeat constructor.
Defined.

(** * How calls compose *)

Lemma run_call_update clk self s p d reason db n st pr :
  find_store db s = Some st ->
  find_product db p = Some pr ->
  d <> 0 ->
  0 <= on_hand db s p + d ->
  run_call clk (UpdateStock self s p (PyInt d) reason) (db, n)
  = (after_update db self s p d reason (clk n) (clk (S n)), S (S n)).
Proof.
  intros Hs Hp Hd Hq. unfold run_call. cbn [fst snd].
  rewrite update_stock_run, Hs, Hp.
  destruct (Z.eqb_spec d 0) as [|_]; [contradiction|].
  destruct (Z.ltb_spec (on_hand db s p + d) 0) as [|_]; [lia|].
  reflexivity.
Qed.

Lemma run_call_transfer clk self f t_ p q reason db n from_store to_store pr :
  f <> t_ ->
  find_store db f = Some from_store ->
  find_store db t_ = Some to_store ->
  find_product db p = Some pr ->
  0 < q ->
  q <= on_hand db f p ->
  run_call clk (TransferStock self f t_ p q reason) (db, n)
  = (after_transfer db self f t_ p q (Store.name from_store)
       (Store.name to_store) reason
       (clk n) (clk (S n)) (clk (S (S n))) (clk (S (S (S n)))),
     S (S (S (S n)))).
Proof.
  intros Hft Hf Ht Hp Hq Hle.
  destruct (source_row_of_stock db f p q Hq Hle) as [source [Es Hs]].
  unfold run_call. cbn [fst snd].
  rewrite transfer_stock_run, Hf, Ht, Hp, Es.
  destruct (Z.leb_spec q 0) as [|_]; [lia|].
  destruct (Z.eqb_spec f t_) as [|_]; [contradiction|].
  destruct (Z.ltb_spec (InventoryItem.quantity source) q) as [|_]; [lia|].
  reflexivity.
Qed.

Lemma on_hand_transferred db self f t_ p q from_name to_name reason
    t1 t2 t3 t4 s' p' :
  f <> t_ -> 0 < q -> q <= on_hand db f p ->
  on_hand (after_transfer db self f t_ p q from_name to_name reason
             t1 t2 t3 t4) s' p' =
  if pair_eq_dec (f, p) (s', p') then on_hand db f p - q
  else if pair_eq_dec (t_, p) (s', p') then on_hand db t_ p + q
  else on_hand db s' p'.
Proof.
  intros Hft Hq Hle.
  destruct (source_row_of_stock db f p q Hq Hle) as [source [Es Hs]].
  now apply (on_hand_after_transfer db self f t_ p q _ _ _ _ _ _ _ source).
Qed.

(** A transfer and the transfer back compose to no change of stock:
    when the first can be carried out and the destination holds no
    negative quantity, both succeed and every pair has on hand what it
    had before; the log has four more rows. *)
Theorem transfer_there_and_back clk self f t_ p q reason reason' db n
    from_store to_store pr :
  f <> t_ ->
  find_store db f = Some from_store ->
  find_store db t_ = Some to_store ->
  find_product db p = Some pr ->
  0 < q ->
  q <= on_hand db f p ->
  0 <= on_hand db t_ p ->
  let st := run_calls clk
              [TransferStock self f t_ p q reason;
               TransferStock self t_ f p q reason'] (db, n) in
  (forall s' p', on_hand (fst st) s' p' = on_hand db s' p')
  /\ List.length (transactions (fst st))
     = (List.length (transactions db) + 4)%nat.
Proof.
  intros Hft Hf Ht Hp Hq Hle Hto. cbv zeta.
  cbn [run_calls fold_left].
  rewrite (run_call_transfer clk self f t_ p q reason db n from_store
             to_store pr) by assumption.
  set (db1 := after_transfer db self f t_ p q _ _ _ _ _ _ _).
  assert (H1 : forall s' p',
             on_hand db1 s' p' =
             if pair_eq_dec (f, p) (s', p') then on_hand db f p - q
             else if pair_eq_dec (t_, p) (s', p') then on_hand db t_ p + q
             else on_hand db s' p').
  { intros s' p'. now apply on_hand_transferred. }
  assert (Hback : q <= on_hand db1 t_ p).
  { rewrite H1. destruct (pair_eq_dec (f, p) (t_, p)); [congruence|].
    destruct (pair_eq_dec (t_, p) (t_, p)); [lia|congruence]. }
  rewrite (run_call_transfer clk self t_ f p q reason' db1 _ to_store
             from_store pr) by (auto; congruence).
  cbn [fst]. split.
  - intros s' p'.
    rewrite on_hand_transferred by (auto; congruence).
    rewrite !H1.
    destruct (pair_eq_dec (t_, p) (s', p')) as [E|];
      destruct (pair_eq_dec (f, p) (s', p')) as [E'|];
      try congruence.
    + destruct (pair_eq_dec (f, p) (t_, p)); [congruence|].
      destruct (pair_eq_dec (t_, p) (t_, p)); [|congruence].
      inversion E; subst. lia.
    + destruct (pair_eq_dec (f, p) (f, p)); [|congruence].
      inversion E'; subst. lia.
  - unfold db1, after_transfer. cbn [transactions].
    rewrite !length_app. cbn [List.length]. lia.
Qed.

Lemma transfer_there_and_back_witness :
  let st := run_calls ticking
              [TransferStock clerk 1 2 1 5 "restock";
               TransferStock clerk 2 1 1 5 "return"] (shop, 0%nat) in
  (forall s' p', on_hand (fst st) s' p' = on_hand shop s' p')
  /\ List.length (transactions (fst st))
     = (List.length (transactions shop) + 4)%nat.
Proof.
  apply (transfer_there_and_back ticking clerk 1 2 1 5 "restock" "return"
           shop 0
           (Store.Build 1 "Downtown" "Main Street")
           (Store.Build 2 "Mall" "Ring Road")
           (Product.Build 1 "LAP-001" "Gaming Laptop Pro" "Electronics" 10)).
  - discriminate.
  - reflexivity.
  - reflexivity.
  - reflexivity.
  - reflexivity.
  - discriminate.
  - discriminate.
Defined.

(** Two updates compose by adding their deltas: when both can be
    carried out one after the other, the pair ends with its stock plus
    both deltas, every other pair with its own, and the log has two more
    rows.  In particular an update and its opposite restore the stock,
    and leave their two rows in the log. *)
Theorem updates_add_up clk self s p d1 d2 reason1 reason2 db n st pr :
  find_store db s = Some st ->
  find_product db p = Some pr ->
  d1 <> 0 -> d2 <> 0 ->
  0 <= on_hand db s p + d1 ->
  0 <= on_hand db s p + d1 + d2 ->
  let st' := run_calls clk
               [UpdateStock self s p (PyInt d1) reason1;
                UpdateStock self s p (PyInt d2) reason2] (db, n) in
  on_hand (fst st') s p = on_hand db s p + d1 + d2
  /\ (forall s' p', (s, p) <> (s', p') ->
                    on_hand (fst st') s' p' = on_hand db s' p')
  /\ List.length (transactions (fst st'))
     = (List.length (transactions db) + 2)%nat.
Proof.
  intros Hs Hp Hd1 Hd2 Hq1 Hq2. cbv zeta. cbn [run_calls fold_left].
  rewrite (run_call_update clk self s p d1 reason1 db n st pr) by assumption.
  set (db1 := after_update db self s p d1 reason1 (clk n) (clk (S n))).
  assert (H1 : on_hand db1 s p = on_hand db s p + d1).
  { unfold db1. rewrite on_hand_after_update.
    destruct (pair_eq_dec (s, p) (s, p)); congruence. }
  rewrite (run_call_update clk self s p d2 reason2 db1 _ st pr)
    by (auto; rewrite H1; lia).
  cbn [fst]. split; [|split].
  - rewrite on_hand_after_update.
    destruct (pair_eq_dec (s, p) (s, p)); [lia|congruence].
  - intros s' p' Hne. rewrite on_hand_after_update.
    destruct (pair_eq_dec (s, p) (s', p')); [congruence|].
    unfold db1. rewrite on_hand_after_update.
    destruct (pair_eq_dec (s, p) (s', p')); [congruence|reflexivity].
  - unfold db1, after_update. cbn [transactions].
    rewrite !length_app. cbn [List.length]. lia.
Qed.

Lemma updates_add_up_witness :
  let st' := run_calls ticking
               [UpdateStock clerk 1 1 (PyInt 5) "delivery";
                UpdateStock clerk 1 1 (PyInt (-5)) "sent back"]
               (shop, 0%nat) in
  on_hand (fst st') 1 1 = on_hand shop 1 1 + 5 + -5
  /\ (forall s' p', (1, 1) <> (s', p') ->
                    on_hand (fst st') s' p' = on_hand shop s' p')
  /\ List.length (transactions (fst st'))
     = (List.length (transactions shop) + 2)%nat.
Proof.
  apply (updates_add_up ticking clerk 1 1 5 (-5) "delivery" "sent back"
           shop 0
           (Store.Build 1 "Downtown" "Main Street")
           (Product.Build 1 "LAP-001" "Gaming Laptop Pro" "Electronics" 10)).
  - reflexivity.
  - reflexivity.
  - discriminate.
  - discriminate.
  - discriminate.
  - discriminate.
Defined.

(** * The catalog *)

Ltac whd_catalog t :=
  eval lazy head beta iota zeta delta
    [add_product update_product get_product_by_sku get_product_by_id
     Endpoints.handle_product_delete
     try_except bind ret raise raise_if query with_inventory_items
     with_products commit rollback open_session flush fst snd]
  in t.

Ltac run_catalog :=
  match goal with
  | |- ?l = ?r => let l' := whd_catalog l in change (l' = r)
  end;
  unfold open_session;
  cbn [committed view new_transactions clock reads app
       stores products inventory_items transactions].

Lemma add_product_run self sku name category reorder_level db clk n :
  add_product self sku name category reorder_level (open_session db clk n) =
  match find (fun p => (Product.sku p =? sku)%string) (products db) with
  | Some _ =>
      (Raise (ValueError ("Product with SKU '" ++ sku ++ "' already exists")),
       open_session db clk n)
  | None =>
      (Ok (Product.Build (next_key (map Product.id (products db))) sku name
             category reorder_level),
       open_session (with_new_product db sku name category reorder_level)
         clk n)
  end.
Proof.
  run_catalog. destruct (find _ (products db)); reflexivity.
Qed.

Lemma update_product_run self product_id kwargs db clk n :
  update_product self product_id kwargs (open_session db clk n) =
  match find_product db product_id with
  | None =>
      (Raise (ValueError ("Product with ID " ++ str product_id
                          ++ " not found")),
       open_session db clk n)
  | Some product =>
      (Ok (apply_kwargs kwargs product),
       open_session (with_updated_product db product_id kwargs) clk n)
  end.
Proof.
  run_catalog. unfold find_product.
  destruct (find _ (products db)); reflexivity.
Qed.

Lemma handle_product_delete_run text logged_in product_id db clk n :
  Endpoints.handle_product_delete text logged_in product_id
    (open_session db clk n) =
  if negb logged_in
  then (Ok (Endpoints.Failed 401 "Authentication required"),
        open_session db clk n)
  else
    match find_product db product_id with
    | None => (Ok (Endpoints.Failed 404 "Product not found"),
               open_session db clk n)
    | Some _ =>
        if has_history db product_id
        then (Ok (Endpoints.Failed 500 text), open_session db clk n)
        else (Ok (Endpoints.Done "Product deleted successfully"),
              open_session (without_product db product_id) clk n)
    end.
Proof.
  run_catalog. destruct logged_in; [|reflexivity]. cbn [negb].
  run_catalog. unfold find_product, has_history.
  destruct (find _ (products db)); [|reflexivity]. run_catalog.
  destruct (existsb _ (transactions db)); reflexivity.
Qed.

Lemma find_in_some {A} (test : A -> bool) l x :
  In x l -> test x = true -> find test l <> None.
Proof.
  intros Hin Ht E. pose proof (find_none _ _ E x Hin). congruence.
Qed.

Lemma find_snoc_fresh {A} (test : A -> bool) l x :
  (forall y, In y l -> test y = false) -> test x = true ->
  find test (l ++ [x]) = Some x.
Proof.
  intros Hl Hx. rewrite find_app.
  destruct (find test l) as [y|] eqn:E.
  - apply find_some in E. destruct E as [Hin Hy].
    rewrite (Hl y Hin) in Hy. discriminate.
  - cbn [find]. now rewrite Hx.
Qed.

(** [add_product] refuses a SKU that is taken: it raises, and the
    catalog, the inventory and the log are as before. *)
Theorem add_product_rejects_taken_sku self sku name category reorder_level
    db clk n taken :
  In taken (products db) -> Product.sku taken = sku ->
  add_product self sku name category reorder_level (open_session db clk n)
  = (Raise (ValueError ("Product with SKU '" ++ sku ++ "' already exists")),
     open_session db clk n).
Proof.
  intros Hin Hsku. rewrite add_product_run.
  destruct (find _ (products db)) eqn:E; [reflexivity|].
  exfalso. apply (find_in_some _ _ taken Hin) in E; [exact E|].
  cbn beta. rewrite Hsku. apply String.eqb_refl.
Qed.

Lemma add_product_rejects_taken_sku_witness :
  add_product clerk "LAP-001" "Another laptop" "Electronics" 3
    (open_session shop ticking 0)
  = (Raise (ValueError ("Product with SKU '" ++ "LAP-001"
                        ++ "' already exists")),
     open_session shop ticking 0).
Proof.
  apply (add_product_rejects_taken_sku clerk "LAP-001" "Another laptop"
           "Electronics" 3 shop ticking 0
           (Product.Build 1 "LAP-001" "Gaming Laptop Pro" "Electronics" 10)).
  - left. reflexivity.
  - reflexivity.
Defined.

(** [add_product] with a SKU that is free returns the new product, with
    the fields given and a key no product has; looking it up by its SKU
    or by its id finds it; the products that were there are still
    there, in place, and the inventory and the log are untouched. *)
Theorem add_product_then_lookup self sku name category reorder_level
    db clk n :
  ~ In sku (map Product.sku (products db)) ->
  exists product s',
    add_product self sku name category reorder_level (open_session db clk n)
    = (Ok product, s')
    /\ Product.sku product = sku
    /\ Product.name product = name
    /\ Product.category product = category
    /\ Product.reorder_level product = reorder_level
    /\ ~ In (Product.id product) (map Product.id (products db))
    /\ fst (get_product_by_sku sku s') = Ok (Some product)
    /\ fst (get_product_by_id (Product.id product) s') = Ok (Some product)
    /\ products (committed s') = products db ++ [product]
    /\ stores (committed s') = stores db
    /\ inventory_items (committed s') = inventory_items db
    /\ transactions (committed s') = transactions db.
Proof.
  intros Hfree. rewrite add_product_run.
  destruct (find _ (products db)) as [q|] eqn:E.
  { exfalso. apply find_some in E. destruct E as [Hin Hq].
    apply String.eqb_eq in Hq. apply Hfree. rewrite <- Hq.
    now apply in_map. }
  eexists _, _. split; [reflexivity|].
  cbn [Product.sku Product.name Product.category Product.reorder_level
       Product.id].
  assert (Hkey : ~ In (next_key (map Product.id (products db)))
                      (map Product.id (products db))).
  { intros Hin. apply next_key_above in Hin. lia. }
  repeat split; auto.
  - unfold get_product_by_sku, query. cbn [fst view open_session
      with_new_product products]. f_equal. apply find_snoc_fresh.
    + intros y Hy. exact (find_none _ _ E y Hy).
    + cbn [Product.sku]. apply String.eqb_refl.
  - unfold get_product_by_id, query. cbn [fst view open_session
      with_new_product products]. f_equal. apply find_snoc_fresh.
    + intros y Hy. apply Z.eqb_neq. intros Ey. apply Hkey.
      rewrite <- Ey. now apply in_map.
    + cbn [Product.id]. apply Z.eqb_refl.
Qed.

Lemma add_product_then_lookup_witness :
  exists product s',
    add_product clerk "PHN-002" "Smartphone X1" "Electronics" 15
      (open_session shop ticking 0)
    = (Ok product, s')
    /\ Product.sku product = "PHN-002"%string
    /\ Product.name product = "Smartphone X1"%string
    /\ Product.category product = "Electronics"%string
    /\ Product.reorder_level product = 15
    /\ ~ In (Product.id product) (map Product.id (products shop))
    /\ fst (get_product_by_sku "PHN-002" s') = Ok (Some product)
    /\ fst (get_product_by_id (Product.id product) s') = Ok (Some product)
    /\ products (committed s') = products shop ++ [product]
    /\ stores (committed s') = stores shop
    /\ inventory_items (committed s') = inventory_items shop
    /\ transactions (committed s') = transactions shop.
Proof.
  apply (add_product_then_lookup clerk "PHN-002" "Smartphone X1"
           "Electronics" 15 shop ticking 0).
  cbn. intros [E|[]]. discriminate E.
Defined.

Lemma setattr_keeps_identity product field value :
  Product.sku (setattr product field value) = Product.sku product
  /\ Product.id (setattr product field value) = Product.id product.
Proof.
  unfold setattr.
  destruct (field =? "name")%string; [split; reflexivity|].
  destruct (field =? "category")%string; [split; reflexivity|].
  destruct (field =? "reorder_level")%string; [|split; reflexivity].
  destruct value; split; reflexivity.
Qed.

Lemma apply_kwargs_keeps_identity kwargs product :
  Product.sku (apply_kwargs kwargs product) = Product.sku product
  /\ Product.id (apply_kwargs kwargs product) = Product.id product.
Proof.
  unfold apply_kwargs. revert product.
  induction kwargs as [|[field value] kwargs IH]; intros product;
    [split; reflexivity|].
  cbn [fold_left fst snd].
  destruct (existsb (String.eqb field) allowed_fields); [|apply IH].
  destruct (IH (setattr product field value)) as [H1 H2].
  destruct (setattr_keeps_identity product field value) as [H3 H4].
  split; congruence.
Qed.


Lemma find_filter_none {A} (test keep : A -> bool) l :
  (forall x, keep x = true -> test x = false) ->
  find test (filter keep l) = None.
Proof.
  intros H. induction l as [|x l IH]; [reflexivity|].
  cbn [filter]. destruct (keep x) eqn:K; [|exact IH].
  cbn [find]. now rewrite (H x K).
Qed.

Lemma find_filter_kept {A} (test keep : A -> bool) l :
  (forall x, test x = true -> keep x = true) ->
  find test (filter keep l) = find test l.
Proof.
  intros H. induction l as [|x l IH]; [reflexivity|].
  cbn [filter find]. destruct (test x) eqn:T.
  - rewrite (H x T). cbn [find]. now rewrite T.
  - destruct (keep x); [cbn [find]; now rewrite T|exact IH].
Qed.

(** Deleting a product never loses history: the log is never written,
    and a product that has transactions is not deleted (the answer is
    500 and nothing changes).  A product without transactions goes,
    with its inventory rows; every other product and row stays. *)
Theorem delete_product_spares_history text product_id db clk n :
  let out := Endpoints.handle_product_delete text true product_id
               (open_session db clk n) in
  transactions (committed (snd out)) = transactions db
  /\ stores (committed (snd out)) = stores db
  /\ match find_product db product_id with
     | None =>
         fst out = Ok (Endpoints.Failed 404 "Product not found")
         /\ committed (snd out) = db
     | Some _ =>
         if has_history db product_id
         then fst out = Ok (Endpoints.Failed 500 text)
              /\ committed (snd out) = db
         else fst out = Ok (Endpoints.Done "Product deleted successfully")
              /\ find_product (committed (snd out)) product_id = None
              /\ (forall s, on_hand (committed (snd out)) s product_id = 0)
              /\ (forall q, In q (products db) -> Product.id q <> product_id ->
                            In q (products (committed (snd out))))
              /\ (forall i, In i (inventory_items db) ->
                            InventoryItem.product_id i <> product_id ->
                            In i (inventory_items (committed (snd out))))
     end.
Proof.
  cbv zeta. rewrite handle_product_delete_run. cbn [negb].
  destruct (find_product db product_id) as [pr|];
    [|cbn [fst snd committed open_session]; repeat split].
  destruct (has_history db product_id);
    cbn [fst snd committed open_session without_product transactions stores];
    repeat split.
  - unfold find_product, without_product. cbn [products].
    apply find_filter_none.
    intros x Hx. now apply negb_true_iff in Hx.
  - intros s. unfold on_hand, without_product. cbn [inventory_items].
    rewrite find_filter_none; [reflexivity|].
    intros x Hx. apply negb_true_iff in Hx.
    unfold InventoryItem.matches. rewrite Hx. apply andb_false_r.
  - intros q Hq Hne. unfold without_product. cbn [products].
    apply filter_In. split; [exact Hq|].
    apply negb_true_iff. now apply Z.eqb_neq.
  - intros i Hi Hne. unfold without_product. cbn [inventory_items].
    apply filter_In.
    split; [exact Hi|]. apply negb_true_iff. now apply Z.eqb_neq.
Qed.

(** ** What every request keeps *)

Lemma run_request_invariant (P : Database -> Prop) clk :
  (forall c st, P (fst st) -> P (fst (run_call clk c st))) ->
  (forall db sku name category reorder_level,
     find (fun p => (Product.sku p =? sku)%string) (products db) = None ->
     P db -> P (with_new_product db sku name category reorder_level)) ->
  (forall db product_id kwargs,
     P db -> P (with_updated_product db product_id kwargs)) ->
  (forall db product_id,
     has_history db product_id = false ->
     P db -> P (without_product db product_id)) ->
  forall r st, P (fst st) -> P (fst (run_request clk r st)).
Proof.
  intros Hcall Hadd Hupd Hdel r [db n] H. cbn [fst] in H.
  destruct r as [c|self sku name category reorder_level
                |self product_id kwargs|logged_in product_id];
    unfold run_request; cbn [fst snd].
  - now apply (Hcall c (db, n)).
  - rewrite add_product_run.
    destruct (find _ (products db)) eqn:E; cbn [snd committed open_session];
      [exact H|]. now apply Hadd.
  - rewrite update_product_run.
    destruct (find_product db product_id);
      cbn [snd committed open_session]; [now apply Hupd|exact H].
  - rewrite handle_product_delete_run.
    destruct logged_in; cbn [negb snd committed open_session]; [|exact H].
    destruct (find_product db product_id);
      cbn [snd committed open_session]; [|exact H].
    destruct (has_history db product_id) eqn:E;
      cbn [snd committed open_session]; [exact H|]. now apply Hdel.
Qed.

Lemma run_requests_invariant (P : Database -> Prop) clk :
  (forall r st, P (fst st) -> P (fst (run_request clk r st))) ->
  forall rs st, P (fst st) -> P (fst (run_requests clk rs st)).
Proof.
  intros Hstep rs. induction rs as [|r rs IH]; intros st H; [exact H|].
  cbn [run_requests fold_left]. apply IH. now apply Hstep.
Qed.

Lemma NoDup_map_filter {A B} (g : A -> B) (keep : A -> bool) l :
  NoDup (map g l) -> NoDup (map g (filter keep l)).
Proof.
  induction l as [|x l IH]; intros H; [constructor|].
  cbn [map] in H. inversion H as [|? ? Hx Hl]; subst.
  cbn [filter]. destruct (keep x); [|now apply IH].
  cbn [map]. constructor; [|now apply IH].
  intros Hin. apply Hx. apply in_map_iff in Hin.
  destruct Hin as [y [E Hy]]. apply filter_In in Hy.
  rewrite <- E. apply in_map. tauto.
Qed.

Lemma NoDup_snoc {A} (l : list A) x : NoDup l -> ~ In x l -> NoDup (l ++ [x]).
Proof.
  intros H Hx. apply NoDup_rev in H. rewrite <- (rev_involutive (_ ++ _)).
  apply NoDup_rev. rewrite rev_app_distr. cbn [rev app].
  constructor; [|exact H]. now rewrite <- in_rev.
Qed.

(** No two products ever share a SKU or an id: the requests of the
    ledger and of the catalog (adding, updating and deleting products)
    keep both unique. *)
Theorem requests_keep_catalog_unique clk rs db n :
  catalog_unique db -> catalog_unique (fst (run_requests clk rs (db, n))).
Proof.
  intros H. apply (run_requests_invariant catalog_unique); [|exact H].
  apply run_request_invariant.
  - intros c [db' n'] H'. cbn [fst] in *.
    destruct (outcome_log clk db' n' c _ (run_call_outcome clk c db' n'))
      as [_ [_ [_ [E _]]]].
    unfold catalog_unique. now rewrite E.
  - intros db' sku name category reorder_level E [Hs Hi].
    split; cbn [with_new_product products]; rewrite map_app; cbn [map].
    + apply NoDup_snoc; [exact Hs|]. cbn [Product.sku]. intros Hin.
      apply in_map_iff in Hin. destruct Hin as [q [Eq Hq]].
      pose proof (find_none _ _ E q Hq) as Hn. cbn beta in Hn.
      rewrite Eq, String.eqb_refl in Hn. discriminate.
    + now apply NoDup_next_key.
  - intros db' product_id kwargs [Hs Hi].
    split; cbn [with_updated_product products];
      rewrite map_update_first; auto;
      intros x; apply apply_kwargs_keeps_identity.
  - intros db' product_id _ [Hs Hi].
    split; cbn [without_product products]; now apply NoDup_map_filter.
Qed.

Lemma requests_keep_catalog_unique_witness :
  catalog_unique shop
  /\ catalog_unique (fst (run_requests ticking office_day (shop, 0%nat))).
Proof.
  assert (H : catalog_unique shop).
  { split; cbn; (constructor; [intros []|constructor]). }
  split; [exact H|].
  exact (requests_keep_catalog_unique ticking office_day shop 0 H).
Defined.

Lemma ledger_consistent_same_rows db db' :
  inventory_items db' = inventory_items db ->
  transactions db' = transactions db ->
  ledger_consistent db -> ledger_consistent db'.
Proof.
  intros Ei Et [Hu Hl]. unfold ledger_consistent, unique_store_product,
    on_hand, ledger_sum in *. rewrite Ei, Et. now split.
Qed.

Lemma no_history_no_sum db product_id s :
  has_history db product_id = false -> ledger_sum db s product_id = 0.
Proof.
  unfold has_history, ledger_sum. intros H.
  induction (transactions db) as [|t l IH]; [reflexivity|].
  cbn [existsb] in H. apply orb_false_iff in H. destruct H as [Ht Hl].
  cbn [filter]. unfold recorded_against at 1. rewrite Ht, andb_false_r.
  now apply IH.
Qed.

Lemma without_product_consistent db product_id :
  has_history db product_id = false ->
  ledger_consistent db -> ledger_consistent (without_product db product_id).
Proof.
  intros Hh [Hu Hl]. split.
  - unfold unique_store_product, without_product. cbn [inventory_items].
    now apply NoDup_map_filter.
  - intros s p.
    change (ledger_sum (without_product db product_id) s p)
      with (ledger_sum db s p).
    unfold on_hand, without_product. cbn [inventory_items].
    destruct (Z.eq_dec p product_id) as [->|Hne].
    + rewrite find_filter_none.
      * cbn [quantity_of]. symmetry. now apply no_history_no_sum.
      * intros x Hx. apply negb_true_iff in Hx.
        unfold InventoryItem.matches. rewrite Hx. apply andb_false_r.
    + rewrite find_filter_kept; [apply Hl|].
      intros x Hx. apply matches_pair in Hx. unfold pair_of in Hx.
      inversion Hx; subst. apply negb_true_iff. now apply Z.eqb_neq.
Qed.

(** The ledger invariant of C1 holds against the whole API: adding,
    updating and deleting products, in any order with the calls of the
    ledger, keep every pair's stock equal to the signed sum of its
    transactions.  A product can go only when it has no transactions,
    and then its rows go too. *)
Theorem requests_keep_ledger_consistent clk rs db n :
  ledger_consistent db ->
  ledger_consistent (fst (run_requests clk rs (db, n)))
  /\ items_match_ledger (fst (run_requests clk rs (db, n))).
Proof.
  intros H.
  assert (H' : ledger_consistent (fst (run_requests clk rs (db, n)))).
  { apply (run_requests_invariant ledger_consistent); [|exact H].
    apply run_request_invariant.
    - intros c st. apply run_call_consistent.
    - intros db' sku name category reorder_level _.
      now apply ledger_consistent_same_rows.
    - intros db' product_id kwargs.
      now apply ledger_consistent_same_rows.
    - intros db' product_id. apply without_product_consistent. }
  split; [exact H'|]. now apply consistent_items_match.
Qed.

Lemma requests_keep_ledger_consistent_witness :
  ledger_consistent shop
  /\ ledger_consistent (fst (run_requests ticking office_day (shop, 0%nat)))
  /\ items_match_ledger (fst (run_requests ticking office_day (shop, 0%nat))).
Proof.
  split; [exact shop_consistent|].
  exact (requests_keep_ledger_consistent ticking office_day shop 0
           shop_consistent).
Defined.

(** ** References *)

Lemma find_update_first_keeps {A} (test test' : A -> bool) f l :
  (forall x, test' (f x) = test' x) ->
  find test' l <> None -> find test' (update_first test f l) <> None.
Proof.
  intros Hf. induction l as [|x l IH]; [auto|].
  cbn [update_first find]. destruct (test x).
  - cbn [find]. rewrite Hf. now destruct (test' x).
  - cbn [find]. destruct (test' x); [discriminate|exact IH].
Qed.

Lemma references_step db db' :
  (forall s p, resolves db s p -> resolves db' s p) ->
  references_resolve db ->
  Forall (fun i => resolves db' (InventoryItem.store_id i)
                     (InventoryItem.product_id i))
         (inventory_items db)
  /\ Forall (fun t => resolves db' (Transaction.store_id t)
                        (Transaction.product_id t))
            (transactions db).
Proof.
  intros H [Hi Ht]. split.
  - eapply Forall_impl; [|exact Hi]. intros i Hr. now apply H.
  - eapply Forall_impl; [|exact Ht]. intros t Hr. now apply H.
Qed.

Lemma outcome_references clk db n c :
  references_resolve db ->
  references_resolve (fst (run_call clk c (db, n))).
Proof.
  intros H. destruct (references_step db db (fun s p Hr => Hr) H) as [Hi Ht].
  destruct c as [self s p delta reason|self f t_ p q reason];
    unfold run_call; cbn [fst snd].
  - rewrite update_stock_run. destruct delta as [d|repr]; [|exact H].
    destruct (d =? 0); [exact H|].
    destruct (find_store db s) eqn:Es; [|exact H].
    destruct (find_product db p) eqn:Ep; [|exact H].
    destruct (_ <? 0); [exact H|].
    assert (Hsp : resolves db s p) by (split; congruence).
    cbv zeta. cbn [snd committed open_session]. split.
    + cbn [after_update inventory_items].
      change (Forall (fun i => resolves db (InventoryItem.store_id i)
                                 (InventoryItem.product_id i))
                (update_first (InventoryItem.matches s p)
                   (InventoryItem.set_last_updated (clk n))
                   (update_first (InventoryItem.matches s p)
                      (InventoryItem.set_quantity (on_hand db s p + d))
                      (with_row db s p)))).
      apply Forall_update_first_each; [|intros x Hx; exact Hx].
      apply Forall_update_first_each; [|intros x Hx; exact Hx].
      unfold with_row. destruct (find _ (inventory_items db)); [exact Hi|].
      apply Forall_app. split; [exact Hi|].
      constructor; [exact Hsp|constructor].
    + cbn [after_update transactions].
      change (Forall (fun t => resolves db (Transaction.store_id t)
                                 (Transaction.product_id t))
                (transactions db
                 ++ [Transaction.Build
                       (next_key (map Transaction.id (transactions db))) p s
                       (if d >? 0 then "IN" else "OUT") (Z.abs d)
                       (clk (S n)) reason None (user_id self)])).
      apply Forall_app. split; [exact Ht|].
      constructor; [exact Hsp|constructor].
  - rewrite transfer_stock_run.
    destruct (q <=? 0); [exact H|]. destruct (f =? t_); [exact H|].
    destruct (find_store db f) as [from_store|] eqn:Ef; [|exact H].
    destruct (find_store db t_) as [to_store|] eqn:Et; [|exact H].
    destruct (find_product db p) eqn:Ep; [|exact H].
    destruct (match find (InventoryItem.matches f p) (inventory_items db)
              with Some i => _ | None => _ end); [exact H|].
    assert (Hfp : resolves db f p) by (split; congruence).
    assert (Htp : resolves db t_ p) by (split; congruence).
    cbv zeta. cbn [snd committed open_session]. split.
    + cbn [after_transfer inventory_items].
      match goal with
      | |- Forall _ ?l =>
          change (Forall (fun i => resolves db (InventoryItem.store_id i)
                                     (InventoryItem.product_id i)) l)
      end.
      do 4 (apply Forall_update_first_each; [|intros x Hx; exact Hx]).
      unfold with_row.
      destruct (find (InventoryItem.matches t_ p) (inventory_items db));
        [exact Hi|].
      apply Forall_app. split; [exact Hi|].
      constructor; [exact Htp|constructor].
    + cbn [after_transfer transactions].
      match goal with
      | |- Forall _ ?l =>
          change (Forall (fun t => resolves db (Transaction.store_id t)
                                     (Transaction.product_id t)) l)
      end.
      apply Forall_app. split; [apply Forall_app; split; [exact Ht|]|].
      * constructor; [exact Hfp|constructor].
      * constructor; [exact Htp|constructor].
Qed.

(** No row ever names a store or a product that does not exist: from a
    database where every inventory row and every transaction names an
    existing store and product, the requests of the ledger and of the
    catalog lead to such a database. *)
Theorem requests_keep_references clk rs db n :
  references_resolve db ->
  references_resolve (fst (run_requests clk rs (db, n))).
Proof.
  intros H. apply (run_requests_invariant references_resolve); [|exact H].
  apply run_request_invariant.
  - intros c [db' n']. cbn [fst]. apply outcome_references.
  - intros db' sku name category reorder_level _ H'.
    apply (references_step db' (with_new_product db' sku name category
                                  reorder_level)); [|exact H'].
    intros s p [Hs Hp]. split; [exact Hs|].
    unfold find_product, with_new_product in *. cbn [products].
    rewrite find_app. now destruct (find _ (products db')).
  - intros db' product_id kwargs H'.
    apply (references_step db' (with_updated_product db' product_id kwargs));
      [|exact H'].
    intros s p [Hs Hp]. split; [exact Hs|].
    unfold find_product, with_updated_product in *. cbn [products].
    apply find_update_first_keeps; [|exact Hp].
    intros x. cbn beta.
    now destruct (apply_kwargs_keeps_identity kwargs x) as [_ ->].
  - intros db' product_id Hh [Hi Ht].
    assert (Hkeep : forall s p, p <> product_id -> resolves db' s p ->
                                resolves (without_product db' product_id) s p).
    { intros s p Hne [Hs Hp]. split; [exact Hs|].
      unfold find_product, without_product in *. cbn [products].
      rewrite find_filter_kept; [exact Hp|].
      intros x Hx. apply Z.eqb_eq in Hx. apply negb_true_iff.
      apply Z.eqb_neq. congruence. }
    split.
    + unfold without_product at 2. cbn [inventory_items].
      apply Forall_forall. intros i Hin. apply filter_In in Hin.
      destruct Hin as [Hin Hne]. apply negb_true_iff, Z.eqb_neq in Hne.
      rewrite Forall_forall in Hi. now apply Hkeep; [|apply Hi].
    + unfold without_product at 2. cbn [transactions].
      apply Forall_forall. intros t Hin.
      assert (Hne : Transaction.product_id t <> product_id).
      { unfold has_history in Hh. intros E.
        assert (existsb (fun t => Transaction.product_id t =? product_id)
                        (transactions db') = true).
        { apply existsb_exists. exists t. split; [exact Hin|].
          now apply Z.eqb_eq. }
        congruence. }
      rewrite Forall_forall in Ht. now apply Hkeep; [|apply Ht].
Qed.

Lemma requests_keep_references_witness :
  references_resolve shop
  /\ references_resolve (fst (run_requests ticking office_day (shop, 0%nat))).
Proof.
  assert (H : references_resolve shop).
  { split; repeat constructor; cbn; discriminate. }
  split; [exact H|].
  exact (requests_keep_references ticking office_day shop 0 H).
Defined.

(** * Sessions, rooms and broadcasts *)

(** A successful login opens the guards and a refused one changes
    nothing: after [login] answers with a user, that user is one of the
    table whose password matched, [require_auth] lets requests through,
    and [require_admin] does exactly when the user's role is admin; a
    refused login (400 or 401) leaves the session as it was, logged in
    or not.  After [logout] both guards answer 401. *)
Theorem login_opens_the_guards check_password_hash users data session :
  match Auth.login check_password_hash users data session with
  | (Auth.LoggedIn user, session') =>
      In user users
      /\ (exists password,
            Auth.given_password
              (match data with Some d => d
               | None => Auth.Credentials None None end) = Some password
            /\ Auth.check_password check_password_hash user password = true)
      /\ Auth.user_id session' = Some (User.id user)
      /\ Auth.require_auth session' = None
      /\ (Auth.require_admin session' = None
          <-> User.role user = "admin"%string)
  | (Auth.Refused status _, session') =>
      session' = session /\ (status = 400 \/ status = 401)
  end
  /\ Auth.require_auth (snd (Auth.logout session))
     = Some (401, "Authentication required"%string)
  /\ Auth.require_admin (snd (Auth.logout session))
     = Some (401, "Authentication required"%string).
Proof.
  split; [|split; reflexivity].
  unfold Auth.login.
  destruct data as [[[name|] [password|]]|]; try (split; auto).
  destruct (find _ users) as [user|] eqn:E; [|split; auto].
  destruct (Auth.check_password check_password_hash user password) eqn:C;
    [|split; auto].
  apply find_some in E. destruct E as [Hin _].
  split; [exact Hin|]. split; [exists password; now split|].
  split; [reflexivity|]. split; [reflexivity|].
  unfold Auth.require_admin, Auth.require_auth. cbn [Auth.user_id Auth.role].
  destruct (String.eqb_spec (User.role user) "admin"); split; intros H;
    try reflexivity; try assumption; try discriminate; try contradiction.
Qed.

Import SocketioEvents.

Lemma str_injective a b : str a = str b -> a = b.
Proof.
  unfold str. intros E.
  assert (Hn : forall z, Z.to_int z <> Decimal.Pos Decimal.Nil
                         /\ Z.to_int z <> Decimal.Neg Decimal.Nil).
  { intros [|q|q]; cbn; split; try discriminate; intros H; inversion H;
      now apply (DecimalPos.Unsigned.to_uint_nonnil q). }
  apply (f_equal NilZero.int_of_string) in E.
  rewrite !NilZero.isi in E by apply Hn.
  inversion E as [E']. apply (f_equal Z.of_int) in E'.
  now rewrite !DecimalZ.of_to in E'.
Qed.

Lemma store_room_injective a b : store_room a = store_room b -> a = b.
Proof.
  unfold store_room. cbn [append]. intros E. inversion E.
  now apply str_injective.
Qed.

Lemma existsb_eqb_in r rooms :
  existsb (String.eqb r) rooms = true <-> In r rooms.
Proof.
  rewrite existsb_exists. split.
  - intros [x [Hx E]]. apply String.eqb_eq in E. now subst.
  - intros H. exists r. split; [exact H|apply String.eqb_refl].
Qed.

Lemma in_join_room r r' rooms :
  In r' (join_room r rooms) <-> r' = r \/ In r' rooms.
Proof.
  unfold join_room. destruct (existsb _ rooms) eqn:E.
  - apply existsb_eqb_in in E. split; [auto|]. intros [->|H]; auto.
  - cbn [In]. split; intros [H|H]; auto.
Qed.

Lemma in_leave_room r r' rooms :
  In r' (leave_room r rooms) <-> r' <> r /\ In r' rooms.
Proof.
  unfold leave_room. rewrite filter_In, negb_true_iff.
  split; intros [H1 H2]; split; auto.
  - intros ->. now rewrite String.eqb_refl in H2.
  - apply String.eqb_neq. congruence.
Qed.

(** Rooms keep stores apart.  A logged-in client that joins the room of
    store [s] gets, of every inventory broadcast, the event sent to
    everyone, and the store event exactly when the update is at [s] or
    at a store whose room it was in already; after it leaves the room
    it gets the store event of [s] no more. *)
Theorem store_rooms_keep_stores_apart session s rooms
    product_id store_id new_qty transaction_id timestamp :
  Auth.user_id session <> None -> s <> 0 ->
  let joined := fst (handle_join_store session (Some s) rooms) in
  let left := fst (handle_leave_store session (Some s) joined) in
  let events := broadcast_inventory_update product_id store_id new_qty
                  transaction_id timestamp in
  filter (reaches joined) events
  = (if (store_id =? s) || existsb (String.eqb (store_room store_id)) rooms
     then events else firstn 1 events)
  /\ filter (reaches left) (broadcast_inventory_update product_id s new_qty
                              transaction_id timestamp)
     = firstn 1 (broadcast_inventory_update product_id s new_qty
                   transaction_id timestamp).
Proof.
  intros Hlog Hs. cbv zeta.
  unfold handle_join_store, handle_leave_store.
  destruct (Auth.user_id session); [|congruence].
  assert (T : truthy (Some s) = true).
  { cbn [truthy]. apply negb_true_iff. now apply Z.eqb_neq. }
  rewrite T. cbn [fst].
  unfold broadcast_inventory_update. cbn [filter reaches room firstn].
  split.
  - destruct (existsb (String.eqb (store_room store_id))
                (join_room (store_room s) rooms)) eqn:E.
    + apply existsb_eqb_in, in_join_room in E.
      destruct E as [E|E].
      * apply store_room_injective in E. subst. now rewrite Z.eqb_refl.
      * apply existsb_eqb_in in E. rewrite E. now rewrite orb_true_r.
    + destruct ((store_id =? s) || _) eqn:O; [|reflexivity].
      exfalso.
      assert (In (store_room store_id) (join_room (store_room s) rooms)).
      { apply in_join_room. apply orb_true_iff in O. destruct O as [O|O].
        - apply Z.eqb_eq in O. subst. now left.
        - right. now apply existsb_eqb_in. }
      apply existsb_eqb_in in H. congruence.
  - destruct (existsb (String.eqb (store_room s))
                (leave_room (store_room s) _)) eqn:E; [|reflexivity].
    apply existsb_eqb_in, in_leave_room in E. now destruct E.
Qed.

Lemma store_rooms_keep_stores_apart_witness :
  let session := Auth.Cookie (Some 1) (Some "admin"%string)
                   (Some "admin"%string) in
  let joined := fst (handle_join_store session (Some 2) []) in
  let left := fst (handle_leave_store session (Some 2) joined) in
  let events := broadcast_inventory_update 1 1 7 2 1001 in
  filter (reaches joined) events
  = (if (1 =? 2) || existsb (String.eqb (store_room 1)) []
     then events else firstn 1 events)
  /\ filter (reaches left) (broadcast_inventory_update 1 2 7 2 1001)
     = firstn 1 (broadcast_inventory_update 1 2 7 2 1001).
Proof.
  apply (store_rooms_keep_stores_apart
           (Auth.Cookie (Some 1) (Some "admin"%string) (Some "admin"%string))
           2 [] 1 1 7 2 1001).
  - discriminate.
  - discriminate.
Defined.

(** A transfer is announced once to everyone and once to each of the two
    store rooms: a client gets one event, plus one if it is in the room
    of the source store, plus one if it is in the room of the
    destination store. *)
Theorem transfer_broadcast_reaches_both_stores rooms f t_ p q result ts :
  List.length (filter (reaches rooms)
                 (broadcast_transfer_update f t_ p q result ts))
  = (1 + (if existsb (String.eqb (store_room f)) rooms then 1 else 0)
       + (if existsb (String.eqb (store_room t_)) rooms then 1 else 0))%nat
  /\ Forall (fun e => data e = TransferUpdate f t_ p q result ts)
            (broadcast_transfer_update f t_ p q result ts).
Proof.
  unfold broadcast_transfer_update. cbn [filter reaches room]. split.
  - destruct (existsb (String.eqb (store_room f)) rooms);
      destruct (existsb (String.eqb (store_room t_)) rooms); reflexivity.
  - repeat constructor.
Qed.

(** ** Broadcasts follow commits *)

(** [api_update_inventory] announces exactly what it committed, and
    nothing otherwise.  It never raises.  When it answers with a
    result, the update is committed as one new row of the log, entered
    by the user of the session, and the two events it emits carry the
    ids of the request, the quantity now on hand for the pair, and the
    id and timestamp of that row.  When it refuses (401 or 400), it
    emits nothing and the session is the one the request started
    with. *)
Theorem update_is_announced_after_commit session_user data db clk n :
  let out := App.api_update_inventory session_user data
               (open_session db clk n) in
  match fst out with
  | Ok (App.Answer result, events) =>
      exists uid body s p row,
        session_user = Some uid /\ data = Some body
        /\ App.store_id body = Some s /\ App.product_id body = Some p
        /\ transactions (committed (snd out)) = transactions db ++ [row]
        /\ Transaction.user_id row = Some uid
        /\ events = broadcast_inventory_update p s
                      (on_hand (committed (snd out)) s p)
                      (Transaction.id row) (Transaction.timestamp row)
        /\ new_quantity result = on_hand (committed (snd out)) s p
  | Ok (App.Refusal status _, events) =>
      (status = 401 \/ status = 400)
      /\ events = [] /\ snd out = open_session db clk n
  | Raise _ => False
  end.
Proof.
  cbv zeta. unfold App.api_update_inventory.
  destruct session_user as [uid|]; [|cbn; auto].
  destruct data as [[[s|] [p|] [delta|] reason]|];
    cbn [App.store_id App.product_id App.delta App.reason]; try (cbn; auto).
  unfold try_except, bind. rewrite update_stock_run.
  destruct delta as [d|repr]; [|cbn; auto].
  destruct (d =? 0); [cbn; auto|].
  destruct (find_store db s); [|cbn; auto].
  destruct (find_product db p); [|cbn; auto].
  destruct (_ <? 0); [cbn; auto|].
  cbv zeta. cbn [fst snd ret committed open_session new_quantity
                 transaction_id timestamp].
  eexists uid, _, s, p, _. split; [reflexivity|]. split; [reflexivity|].
  cbn [App.store_id App.product_id].
  split; [reflexivity|]. split; [reflexivity|].
  unfold after_update at 1. cbn [transactions].
  split; [reflexivity|].
  cbn [Transaction.user_id Transaction.id Transaction.timestamp user_id].
  split; [reflexivity|].
  rewrite on_hand_after_update.
  destruct (pair_eq_dec (s, p) (s, p)); [|congruence].
  split; reflexivity.
Qed.

(** [api_transfer_inventory] likewise: it never raises; an answer with a
    result means the transfer is committed as two new rows of the log,
    and three events are emitted, to everyone and to the rooms of the
    two stores, all with the stores, product and quantity of the request
    and the timestamp of the source row; a refusal emits nothing and
    leaves the session as the request found it. *)
Theorem transfer_is_announced_after_commit session_user data db clk n :
  let out := App.api_transfer_inventory session_user data
               (open_session db clk n) in
  match fst out with
  | Ok (App.Answer result, events) =>
      exists uid body f t_ p q o i,
        session_user = Some uid /\ data = Some body
        /\ App.from_store body = Some f /\ App.to_store body = Some t_
        /\ App.t_product_id body = Some p /\ App.quantity body = Some q
        /\ transactions (committed (snd out)) = transactions db ++ [o; i]
        /\ events = broadcast_transfer_update f t_ p q result
                      (Transaction.timestamp o)
        /\ map room events
           = [None; Some (store_room f); Some (store_room t_)]
        /\ side_new_quantity (from_store result)
           = on_hand (committed (snd out)) f p
        /\ side_new_quantity (to_store result)
           = on_hand (committed (snd out)) t_ p
  | Ok (App.Refusal status _, events) =>
      (status = 401 \/ status = 400)
      /\ events = [] /\ snd out = open_session db clk n
  | Raise _ => False
  end.
Proof.
  cbv zeta. unfold App.api_transfer_inventory.
  destruct session_user as [uid|]; [|cbn; auto].
  destruct data as [[[f|] [t_|] [p|] [q|] reason]|];
    cbn [App.from_store App.to_store App.t_product_id App.quantity
         App.t_reason]; try (cbn; auto).
  unfold try_except, bind. rewrite transfer_stock_run.
  destruct (q <=? 0); [cbn; auto|].
  destruct (f =? t_); [cbn; auto|].
  destruct (find_store db f); [|cbn; auto].
  destruct (find_store db t_); [|cbn; auto].
  destruct (find_product db p); [|cbn; auto].
  destruct (match find (InventoryItem.matches f p) (inventory_items db)
            with Some i => _ | None => _ end); [cbn; auto|].
  cbv zeta. cbn [fst snd ret committed open_session transfer_timestamp
                 from_store to_store side_new_quantity].
  eexists uid, _, f, t_, p, q, _, _.
  split; [reflexivity|]. split; [reflexivity|].
  cbn [App.from_store App.to_store App.t_product_id App.quantity].
  do 4 (split; [reflexivity|]).
  unfold after_transfer at 1. cbn [transactions]. rewrite <- app_assoc.
  split; [reflexivity|].
  cbn [Transaction.timestamp out_row].
  split; [reflexivity|]. split; [reflexivity|]. split; reflexivity.
Qed.

(** * Reports after calls *)

Lemma in_low_stock_items store_id db i p :
  In i (inventory_items db) -> In p (products db) ->
  Product.id p = InventoryItem.product_id i ->
  InventoryItem.quantity i <= Product.reorder_level p ->
  (truthy store_id = true -> store_id = Some (InventoryItem.store_id i)) ->
  In (LowStockItem i (Product.name p) (Product.sku p)
        (Product.reorder_level p)
        (Product.reorder_level p - InventoryItem.quantity i))
     (get_low_stock_items store_id db).
Proof.
  intros Hi Hp Hid Hq Hs. unfold get_low_stock_items.
  apply in_map_iff. exists (i, p). split; [reflexivity|].
  assert (Hlow : In (i, p)
            (filter (fun ip => InventoryItem.quantity (fst ip)
                               <=? Product.reorder_level (snd ip))
                    (join_product db))).
  { apply filter_In. split; [now apply in_join_product|].
    now apply Z.leb_le. }
  destruct (truthy store_id) eqn:T; [|exact Hlow].
  apply filter_In. split; [exact Hlow|]. cbn [fst].
  rewrite (Hs eq_refl). cbn [eq_opt]. apply Z.eqb_refl.
Qed.

(** A sale that takes the stock to the reorder level or below shows in
    the low-stock list at once: after a successful [update_stock] whose
    new quantity is at most the reorder level of the product, the list
    of the store (and the unfiltered list) has an entry for the pair,
    with the new quantity and shortage = reorder level - new
    quantity. *)
Theorem update_stock_raises_low_stock self s p d reason db clk n st pr :
  find_store db s = Some st ->
  find_product db p = Some pr ->
  d <> 0 ->
  0 <= on_hand db s p + d ->
  on_hand db s p + d <= Product.reorder_level pr ->
  exists r s' e,
    update_stock self s p (PyInt d) reason (open_session db clk n)
    = (Ok r, s')
    /\ In e (get_low_stock_items (Some s) (committed s'))
    /\ In e (get_low_stock_items None (committed s'))
    /\ InventoryItem.store_id (item e) = s
    /\ InventoryItem.product_id (item e) = p
    /\ InventoryItem.quantity (item e) = new_quantity r
    /\ shortage e = Product.reorder_level pr - new_quantity r
    /\ 0 <= shortage e.
Proof.
  intros Hs Hp Hd Hq Hlow. rewrite update_stock_run, Hs, Hp.
  destruct (Z.eqb_spec d 0) as [|_]; [contradiction|].
  destruct (Z.ltb_spec (on_hand db s p + d) 0) as [|_]; [lia|].
  cbv zeta.
  destruct (row_after_update db self s p d reason (clk n) (clk (S n)))
    as [i [Ei [Hi _]]].
  apply find_some in Ei. destruct Ei as [Hin Hm].
  apply matches_pair in Hm. unfold pair_of in Hm. inversion Hm as [[Hs' Hp']].
  unfold find_product in Hp. apply find_some in Hp.
  destruct Hp as [Hpin Hpid]. apply Z.eqb_eq in Hpid.
  eexists _, _, (LowStockItem i (Product.name pr) (Product.sku pr)
                   (Product.reorder_level pr)
                   (Product.reorder_level pr - InventoryItem.quantity i)).
  split; [reflexivity|]. cbn [committed open_session new_quantity].
  split.
  { apply in_low_stock_items; auto; try congruence; try lia;
      try (intros _; congruence). }
  split.
  { apply in_low_stock_items; auto; try congruence; try lia;
      try discriminate. }
  cbn [item shortage]. rewrite ?Hs', ?Hp', ?Hi. repeat split; lia.
Qed.

Lemma update_stock_raises_low_stock_witness :
  exists r s' e,
    update_stock clerk 1 1 (PyInt (-5)) "sale" (open_session shop ticking 0)
    = (Ok r, s')
    /\ In e (get_low_stock_items (Some 1) (committed s'))
    /\ In e (get_low_stock_items None (committed s'))
    /\ InventoryItem.store_id (item e) = 1
    /\ InventoryItem.product_id (item e) = 1
    /\ InventoryItem.quantity (item e) = new_quantity r
    /\ shortage e
       = Product.reorder_level
           (Product.Build 1 "LAP-001" "Gaming Laptop Pro" "Electronics" 10)
         - new_quantity r
    /\ 0 <= shortage e.
Proof.
  apply (update_stock_raises_low_stock clerk 1 1 (-5) "sale" shop ticking 0
           (Store.Build 1 "Downtown" "Main Street")
           (Product.Build 1 "LAP-001" "Gaming Laptop Pro" "Electronics" 10)).
  - reflexivity.
  - reflexivity.
  - discriminate.
  - discriminate.
  - discriminate.
Defined.

Lemma sum_filter_or (a b : Transaction.t -> bool) l :
  (forall t, a t = true -> b t = false) ->
  sum (map Transaction.quantity (filter (fun t => a t || b t) l))
  = sum (map Transaction.quantity (filter a l))
    + sum (map Transaction.quantity (filter b l)).
Proof.
  intros Hab. unfold sum. induction l as [|t l IH]; [reflexivity|].
  cbn [filter]. destruct (a t) eqn:A.
  - rewrite (Hab t A). cbn [orb map fold_right]. lia.
  - destruct (b t); cbn [orb map fold_right]; lia.
Qed.

Lemma filter_ext_in_scope {A} (f g : A -> bool) l :
  (forall x, In x l -> f x = g x) -> filter f l = filter g l.
Proof.
  intros H. induction l as [|x l IH]; [reflexivity|].
  cbn [filter]. rewrite (H x (or_introl eq_refl)), IH; [reflexivity|].
  intros y Hy. apply H. now right.
Qed.

Lemma filter_and_false {A} (f : A -> bool) l :
  filter (fun x => f x && false) l = [].
Proof.
  induction l as [|x l IH]; [reflexivity|].
  cbn [filter]. now rewrite andb_false_r.
Qed.

(** The totals of the stock report by scope.  Its transactions are the
    rows of the log inside the bounds given (both inclusive) and, when
    the store id is true, of that store.  With a store, [total_in] is the
    IN quantity of these rows plus [total_transfers_in], which is the
    quantity of all their TRANSFER rows, sent and received alike.
    Without a store, [total_in] and [total_transfers_in] are 0 and
    [net_change] is minus [total_out]. *)
Theorem stock_report_totals_by_scope start_date end_date store_id db :
  let r := generate_stock_report start_date end_date store_id db in
  let rows := report_transactions r in
  let quantity_of_type ty :=
    sum (map Transaction.quantity
           (filter (fun t => (Transaction.type t =? ty)%string) rows)) in
  (forall t,
     In t rows <->
     In t (transactions db)
     /\ (forall d, start_date = Some d -> d <= Transaction.timestamp t)
     /\ (forall d, end_date = Some d -> Transaction.timestamp t <= d)
     /\ (truthy store_id = true -> store_id = Some (Transaction.store_id t)))
  /\ total_out (report_totals r) = quantity_of_type "OUT"%string
  /\ net_change (report_totals r)
     = total_in (report_totals r) - total_out (report_totals r)
  /\ (truthy store_id = true ->
      total_transfers_in (report_totals r) = quantity_of_type "TRANSFER"%string
      /\ total_in (report_totals r)
         = quantity_of_type "IN"%string
           + total_transfers_in (report_totals r))
  /\ (store_id = None ->
      total_in (report_totals r) = 0
      /\ total_transfers_in (report_totals r) = 0
      /\ net_change (report_totals r) = - total_out (report_totals r)).
Proof.
  cbv zeta. unfold generate_stock_report.
  cbn [report_transactions report_totals total_in total_out
       total_transfers_in net_change].
  set (rows := if truthy store_id then _ else _).
  assert (Hrows : forall t,
     In t rows <->
     In t (transactions db)
     /\ (forall d, start_date = Some d -> d <= Transaction.timestamp t)
     /\ (forall d, end_date = Some d -> Transaction.timestamp t <= d)
     /\ (truthy store_id = true -> store_id = Some (Transaction.store_id t))).
  { intros t. unfold rows.
    assert (Hw : forall l,
      In t (match end_date with
            | Some d => filter (fun t => Transaction.timestamp t <=? d)
                          (match start_date with
                           | Some d0 =>
                               filter (fun t => Transaction.timestamp t >=? d0) l
                           | None => l
                           end)
            | None => match start_date with
                      | Some d0 =>
                          filter (fun t => Transaction.timestamp t >=? d0) l
                      | None => l
                      end
            end)
      <-> In t l
          /\ (forall d, start_date = Some d -> d <= Transaction.timestamp t)
          /\ (forall d, end_date = Some d -> Transaction.timestamp t <= d)).
    { intros l. destruct end_date as [b|]; destruct start_date as [a|];
        rewrite ?filter_In, ?Z.leb_le, ?Z.geb_le; split.
      - intros [[H1 H2] H3]. repeat split; auto; intros d E; inversion E; lia.
      - intros [H1 [H2 H3]]. specialize (H2 a eq_refl).
        specialize (H3 b eq_refl). repeat split; auto.
      - intros [H1 H3]. repeat split; auto; intros d E; inversion E; lia.
      - intros [H1 [_ H3]]. specialize (H3 b eq_refl). split; auto.
      - intros [H1 H2]. repeat split; auto; intros d E; inversion E; lia.
      - intros [H1 [H2 _]]. specialize (H2 a eq_refl). split; auto.
      - intros H1. repeat split; auto; intros d E; inversion E.
      - now intros [H1 _]. }
    destruct (truthy store_id) eqn:T.
    - rewrite filter_In, Hw. destruct store_id as [k|]; [|discriminate].
      cbn [eq_opt]. rewrite Z.eqb_eq. split.
      + intros [[H1 [H2 H3]] ->]. repeat split; auto.
      + intros [H1 [H2 [H3 H4]]]. specialize (H4 eq_refl). inversion H4.
        repeat split; auto.
    - rewrite Hw. split.
      + intros [H1 [H2 H3]]. repeat split; auto. discriminate.
      + intros [H1 [H2 [H3 _]]]. repeat split; auto. }
  split; [exact Hrows|]. split; [reflexivity|]. split; [reflexivity|].
  split.
  - intros T.
    assert (Hscope : forall t, In t rows ->
                               eq_opt (Transaction.store_id t) store_id = true).
    { intros t Ht. apply Hrows in Ht. destruct Ht as [_ [_ [_ Hs]]].
      rewrite (Hs T). cbn [eq_opt]. apply Z.eqb_refl. }
    assert (Ht : filter (fun t => (Transaction.type t =? "TRANSFER")%string
                                  && eq_opt (Transaction.store_id t) store_id)
                        rows
                 = filter (fun t => (Transaction.type t =? "TRANSFER")%string)
                          rows).
    { apply filter_ext_in_scope. intros t Hin.
      now rewrite (Hscope t Hin), andb_true_r. }
    rewrite Ht. split; [reflexivity|].
    rewrite <- (sum_filter_or
                  (fun t => (Transaction.type t =? "IN")%string)
                  (fun t => (Transaction.type t =? "TRANSFER")%string)).
    + f_equal. f_equal. apply filter_ext_in_scope. intros t Hin.
      rewrite (Hscope t Hin), andb_true_r.
      unfold type_in. cbn [existsb]. now rewrite orb_false_r.
    + intros t E. apply String.eqb_eq in E. rewrite E. reflexivity.
  - intros ->. cbn [eq_opt]. rewrite !filter_and_false.
    cbn [map sum fold_right]. repeat split; lia.
Qed.
